(** * GRR users: credentials, notification inbox and global notifications

  A shallow embedding of [grr/lib/aff4_objects/users.py] and the properties
  its specification states about it.

  Python 2 byte strings are [string] (a sequence of 8-bit [ascii]
  characters), integers are [Z] or [N], protobuf structs are records, and
  the AFF4 object that carries a user's attributes is a record threaded
  through every method, together with the outcome of the call (a returned
  value or a raised exception). *)

From Stdlib Require Import ZArith NArith Ascii String Bool Lia.
From stdpp Require Import base list sorting strings.

Open Scope N_scope.

(** ** Byte strings *)

Module Str.

(** [ord(c)] *)
Definition ord (c : ascii) : N := N_of_ascii c.

(** [len(s)] *)
Definition len (s : string) : nat := String.length s.

Definition chars (s : string) : list ascii := list_ascii_of_string s.

(** [s.startswith(prefix)] *)
Fixpoint startswith (s prefix : string) {struct prefix} : bool :=
  match prefix, s with
  | EmptyString, _ => true
  | String p prefix', String c s' =>
      if Ascii.eqb c p then startswith s' prefix' else false
  | String _ _, EmptyString => false
  end.

(** [s.split(sep)] for a separator of one character: the pieces between
    the occurrences of [sep], all of them, empty ones included; the result
    always has at least one piece. *)
Fixpoint split (sep : ascii) (s : string) : list string :=
  match s with
  | EmptyString => [EmptyString]
  | String c s' =>
      if Ascii.eqb c sep then EmptyString :: split sep s'
      else match split sep s' with
           | piece :: pieces => String c piece :: pieces
           | [] => [String c EmptyString]
           end
  end.

(** [sep in s] *)
Fixpoint contains (sep : ascii) (s : string) : bool :=
  match s with
  | EmptyString => false
  | String c s' => Ascii.eqb c sep || contains sep s'
  end.

(** [s[:n]] *)
Fixpoint prefix_of (n : nat) (s : string) : string :=
  match n, s with
  | S n', String c s' => String c (prefix_of n' s')
  | _, _ => EmptyString
  end.

Definition hex_digit (d : N) : ascii :=
  if d <? 10 then ascii_of_N (48 + d) else ascii_of_N (87 + d).

(** The [width] low hexadecimal digits of [x], most significant first. *)
Fixpoint hex_fixed (width : nat) (x : N) : string :=
  match width with
  | O => EmptyString
  | S w => hex_fixed w (x / 16) +:+ String (hex_digit (x mod 16)) EmptyString
  end.

Fixpoint hex_digits_upto (fuel : nat) (x : N) : nat :=
  match fuel with
  | O => O
  | S fuel' => if x =? 0 then O else S (hex_digits_upto fuel' (x / 16))
  end.

(** The number of hexadecimal digits of [x] (0 for 0). *)
Definition hex_width (x : N) : nat := hex_digits_upto (S (N.to_nat (N.log2 x))) x.

(** ["%08x" % x]: lower-case hexadecimal, zero-padded on the left to at
    least eight digits, never truncated. *)
Definition format_08x (x : N) : string := hex_fixed (Nat.max 8 (hex_width x)) x.

(** [c.lower()] for a byte: the letters A to Z become a to z, every other
    byte stays. *)
Definition lower_char (c : ascii) : ascii :=
  let n := N_of_ascii c in
  if (65 <=? n) && (n <=? 90) then ascii_of_N (n + 32) else c.

(** [s.lower()] *)
Fixpoint lower (s : string) : string :=
  match s with
  | EmptyString => EmptyString
  | String c s' => String (lower_char c) (lower s')
  end.

(** [sep.join(pieces)] *)
Fixpoint join (sep : string) (pieces : list string) : string :=
  match pieces with
  | [] => EmptyString
  | [piece] => piece
  | piece :: pieces' => piece +:+ sep +:+ join sep pieces'
  end.

(** The line feed. *)
Definition newline : ascii := "010"%char.

End Str.

(** ** SHA-256 ([hashlib.sha256(data).hexdigest()], FIPS 180-4) *)

Module SHA256.

Definition word (x : N) : N := N.land x 0xFFFFFFFF.
Definition add (x y : N) : N := word (x + y).
Definition rotr (n x : N) : N := N.lor (N.shiftr x n) (word (N.shiftl x (32 - n))).
Definition shr (n x : N) : N := N.shiftr x n.
Definition lnot32 (x : N) : N := N.lxor x 0xFFFFFFFF.

Definition Ch (x y z : N) : N := N.lxor (N.land x y) (N.land (lnot32 x) z).
Definition Maj (x y z : N) : N :=
  N.lxor (N.lxor (N.land x y) (N.land x z)) (N.land y z).
Definition Sigma0 (x : N) : N := N.lxor (N.lxor (rotr 2 x) (rotr 13 x)) (rotr 22 x).
Definition Sigma1 (x : N) : N := N.lxor (N.lxor (rotr 6 x) (rotr 11 x)) (rotr 25 x).
Definition sigma0 (x : N) : N := N.lxor (N.lxor (rotr 7 x) (rotr 18 x)) (shr 3 x).
Definition sigma1 (x : N) : N := N.lxor (N.lxor (rotr 17 x) (rotr 19 x)) (shr 10 x).

(** The constants are defined as the standard defines them: the first 32
    bits of the fractional parts of the cube roots (for [K]) and of the
    square roots (for [H0]) of the first 64 and the first 8 primes. *)
Definition is_prime (n : nat) : bool :=
  forallb (fun d => negb (n mod d =? 0)%nat) (seq 2 (n - 2)).

Definition primes (count : nat) : list N :=
  map N.of_nat (take count (List.filter is_prime (seq 2 310))).

(** The integer cube root, one bit at a time from bit [bits - 1] down. *)
Fixpoint cube_root_bits (bits : nat) (x r : N) : N :=
  match bits with
  | O => r
  | S b =>
      let r' := r + 2 ^ N.of_nat b in
      cube_root_bits b x (if r' * r' * r' <=? x then r' else r)
  end.

Definition cube_root (x : N) : N := cube_root_bits 40 x 0.

Definition K : list N :=
  Eval vm_compute in map (fun p => word (cube_root (p * 2 ^ 96))) (primes 64).

Definition H0 : list N :=
  Eval vm_compute in map (fun p => word (N.sqrt (p * 2 ^ 64))) (primes 8).

(** Big-endian bytes of [x], [n] of them. *)
Fixpoint be_bytes (n : nat) (x : N) : list N :=
  match n with
  | O => []
  | S n' => be_bytes n' (x / 256) ++ [x mod 256]
  end.

(** The message followed by the bit 1, zero bits up to 56 modulo 64 bytes,
    and the length in bits as a 64-bit big-endian integer. *)
Definition pad (msg : list N) : list N :=
  let l := length msg in
  let zeros := ((119 - l mod 64) mod 64)%nat in
  msg ++ [0x80] ++ replicate zeros 0 ++ be_bytes 8 (8 * N.of_nat l).

(** The big-endian 32-bit words of a byte sequence. *)
Fixpoint words (fuel : nat) (bytes : list N) : list N :=
  match fuel, bytes with
  | S fuel', b0 :: b1 :: b2 :: b3 :: rest =>
      (((b0 * 256 + b1) * 256 + b2) * 256 + b3) :: words fuel' rest
  | _, _ => []
  end.

Fixpoint blocks (fuel : nat) (ws : list N) : list (list N) :=
  match fuel, ws with
  | _, [] => []
  | O, _ => []
  | S fuel', _ => take 16 ws :: blocks fuel' (drop 16 ws)
  end.

(** The message schedule: [w] holds the words computed so far, newest
    first; [n] more are appended. *)
Fixpoint schedule (n : nat) (w : list N) : list N :=
  match n with
  | O => rev w
  | S n' =>
      let at_ i := nth i w 0 in
      let next := add (add (sigma1 (at_ 1%nat)) (at_ 6%nat))
                      (add (sigma0 (at_ 14%nat)) (at_ 15%nat)) in
      schedule n' (next :: w)
  end.

Record regs := Regs { ra : N; rb : N; rc : N; rd : N; re : N; rf : N; rg : N; rh : N }.

Definition round (r : regs) (kw : N * N) : regs :=
  let '(k, w) := kw in
  let t1 := add (add (add (add (rh r) (Sigma1 (re r))) (Ch (re r) (rf r) (rg r))) k) w in
  let t2 := add (Sigma0 (ra r)) (Maj (ra r) (rb r) (rc r)) in
  Regs (add t1 t2) (ra r) (rb r) (rc r) (add (rd r) t1) (re r) (rf r) (rg r).

Definition regs_of (h : list N) : regs :=
  let at_ i := nth i h 0 in
  Regs (at_ 0%nat) (at_ 1%nat) (at_ 2%nat) (at_ 3%nat)
       (at_ 4%nat) (at_ 5%nat) (at_ 6%nat) (at_ 7%nat).

Definition compress (h : list N) (block : list N) : list N :=
  let w := schedule 48 (rev block) in
  let r0 := regs_of h in
  let r := fold_left round (combine K w) r0 in
  [ add (ra r0) (ra r); add (rb r0) (rb r); add (rc r0) (rc r); add (rd r0) (rd r);
    add (re r0) (re r); add (rf r0) (rf r); add (rg r0) (rg r); add (rh r0) (rh r) ].

Definition digest_words (msg : list N) : list N :=
  let padded := pad msg in
  let ws := words (length padded) padded in
  fold_left compress (blocks (length ws) ws) H0.

Definition hexdigest (data : string) : string :=
  let msg := map Str.ord (Str.chars data) in
  foldr (fun w acc => Str.hex_fixed 8 w +:+ acc) EmptyString (digest_words msg).

End SHA256.

(** ** Outcomes of a call *)

(** The exceptions the module raises: [TypeError] (an invalid notification
    type), [UniqueKeyError], the [ImportError] of [import crypt] on a platform
    without it, and the [IndexError] of an index out of range. *)
Inductive exn : Type :=
| TypeError
| UniqueKeyError
| ImportError
| IndexError.

Inductive outcome (A : Type) : Type :=
| Returned (a : A)
| Raised (e : exn).
Arguments Returned {A} a.
Arguments Raised {A} e.

Definition is_raised {A} (o : outcome A) : bool :=
  match o with Raised _ => true | Returned _ => false end.

(** ** CryptedPassword *)

Module CryptedPassword.

(** An [RDFString]: the encoded password is its [_value]. *)
Record t : Type := Make { _value : string }.

Definition _MakeTemplate (pwhash salt : string) : string :=
  "sha256" +:+ "$" +:+ salt +:+ "$" +:+ pwhash.

(** The loop of [safe_str_cmp]: [rv |= ord(x) ^ ord(y)] for every pair of
    [izip(a, b)], from [rv = 0]. *)
Definition xor_accumulate (a b : string) : N :=
  fold_left (fun rv xy => N.lor rv (N.lxor (Str.ord xy.1) (Str.ord xy.2)))
            (zip (Str.chars a) (Str.chars b)) 0.

Definition safe_str_cmp (a b : string) : bool :=
  if negb (Str.len a =? Str.len b)%nat then false
  else xor_accumulate a b =? 0.

Definition _CalculateHash (password salt : string) : string :=
  let pwhash := SHA256.hexdigest (salt +:+ password +:+ salt) in
  _MakeTemplate pwhash salt.

(** [SetPassword(password, salt=None)]; [ulong] is what
    [utils.PRNG.GetULong()] draws when no salt is given. *)
Definition SetPassword (ulong : N) (self : t) (password : string)
    (salt : option string) : t :=
  let salt := match salt with
              | None => Str.format_08x ulong
              | Some salt => salt
              end in
  Make (_CalculateHash password salt).

(** The legacy check; [crypt] is the platform's [crypt.crypt], [None] where
    the module cannot be imported. *)
Definition _CheckLegacyPassword (crypt : option (string -> string -> string))
    (self : t) (password : string) : outcome bool :=
  match crypt with
  | None => Raised ImportError
  | Some crypt_crypt =>
      let salt := Str.prefix_of 2 (_value self) in
      Returned (String.eqb (crypt_crypt password salt) (_value self))
  end.

Definition CheckPassword (crypt : option (string -> string -> string))
    (self : t) (password : string) : outcome bool :=
  if negb (Str.startswith (_value self) "sha256$") then
    _CheckLegacyPassword crypt self password
  else
    match Str.split "$" (_value self) !! 1%nat with
    | None => Raised IndexError
    | Some salt =>
        Returned (safe_str_cmp (_value self) (_CalculateHash password salt))
    end.

(** The truth value of the object in a boolean context: that of its string. *)
Definition nonzero (self : t) : bool := negb (Str.len (_value self) =? 0)%nat.

End CryptedPassword.

(** ** Notifications and the AFF4 user object *)

Module Notification.
(** [rdf_flows.Notification]; the timestamp is in microseconds. *)
Record t : Type := Make {
  type : string;
  subject : string;
  message : string;
  source : string;
  timestamp : Z
}.
End Notification.

(** A [NotificationList] is an array of notifications: [Append] adds at the
    end, [Pop(i)] removes the entry of index [i], [len] counts the entries,
    and the object is true in a boolean context when it has an entry. *)
Abbreviation NotificationList := (list Notification.t).

Module RDFDatetime.
(** Microseconds since the epoch. *)
Definition t : Type := Z.
End RDFDatetime.

Module Duration.
(** Seconds. *)
Definition t : Type := Z.

(** [rdfvalue.Duration("2w")]: two weeks. *)
Definition two_weeks : t := (2 * (7 * 24 * 60 * 60))%Z.
End Duration.

(** [show_from + duration]: a datetime moved forward by a duration. *)
Definition datetime_add (when : RDFDatetime.t) (d : Duration.t) : RDFDatetime.t :=
  (when + d * 1000000)%Z.

Module GlobalNotification.

(** Modelled from the spec: the protobuf declaration
    [jobs_pb2.GlobalNotification] is not part of the sources; the fields are
    those of the data model, the severities are numbered in priority
    order, and an unset integer field reads as 0. *)
Inductive Type_ : Type := INFO | WARNING | ERROR.

Definition Type_value (ty : Type_) : N :=
  match ty with INFO => 0 | WARNING => 1 | ERROR => 2 end.

Record t : Type := Make {
  type : Type_;
  message : string;
  link : option string;
  show_from : RDFDatetime.t;
  duration : Duration.t
}.

#[global] Instance Type_eq_dec : EqDecision Type_.
Proof. solve_decision. Defined.

#[global] Instance eq_dec : EqDecision t.
Proof. solve_decision. Defined.

(** [GlobalNotification(type=..., message=..., link=..., show_from=...,
    duration=...)]: the fields given are set, then a duration that is not
    true becomes two weeks and a [show_from] that is not true becomes
    [now], the reading of [RDFDatetime.Now()]. *)
Definition __init__ (now : RDFDatetime.t) (type : Type_) (message : string)
    (link : option string) (show_from : option RDFDatetime.t)
    (duration : option Duration.t) : t :=
  let self := Make type message link (default 0%Z show_from) (default 0%Z duration) in
  let self :=
    if negb (GlobalNotification.duration self =? 0)%Z then self
    else Make (GlobalNotification.type self) (GlobalNotification.message self)
              (GlobalNotification.link self) (GlobalNotification.show_from self)
              Duration.two_weeks in
  let self :=
    if negb (GlobalNotification.show_from self =? 0)%Z then self
    else Make (GlobalNotification.type self) (GlobalNotification.message self)
              (GlobalNotification.link self) now
              (GlobalNotification.duration self) in
  self.

End GlobalNotification.

(** The window in which a notification is to be shown, from [show_from] to
    [show_from + duration], contains the time [now]. *)
Definition in_window (now : RDFDatetime.t) (n : GlobalNotification.t) : Prop :=
  (GlobalNotification.show_from n <= now <=
   datetime_add (GlobalNotification.show_from n) (GlobalNotification.duration n))%Z.

(** [sorted(l, key=key)]: a stable sort, entries of equal key keep their
    order. *)
Section sorted.
Context {A : Type} (key : A -> N).

Fixpoint insert_by_key (x : A) (l : list A) : list A :=
  match l with
  | [] => [x]
  | y :: l' => if key x <=? key y then x :: y :: l' else y :: insert_by_key x l'
  end.

Definition sorted : list A -> list A := foldr insert_by_key [].
End sorted.

Module GlobalNotificationSet.

Record t : Type := Make { notifications : list GlobalNotification.t }.

(** [GlobalNotificationSet()] *)
Definition empty : t := Make [].

Definition type_key (x : GlobalNotification.t) : N :=
  GlobalNotification.Type_value (GlobalNotification.type x).

Definition AddNotification (self : t) (new_notification : GlobalNotification.t) : t :=
  let current_list :=
    filter (fun notification => GlobalNotification.type notification ≠
                                GlobalNotification.type new_notification)
           (notifications self) in
  let current_list := current_list ++ [new_notification] in
  let current_list := sorted type_key current_list in
  Make current_list.

(** [for notification in self] *)
Definition iter (self : t) : list GlobalNotification.t := notifications self.

(** [notification in self] *)
Definition contains (self : t) (notification : GlobalNotification.t) : bool :=
  bool_decide (notification ∈ notifications self).

(** The invariants of the data model: at most one notification of each
    type, and the notifications in ascending order of type. *)
Definition one_per_type (self : t) : Prop :=
  NoDup (GlobalNotification.type <$> notifications self).

Definition by_priority (self : t) : Prop :=
  StronglySorted (fun a b => type_key a <= type_key b) (notifications self).

(** A sequence of calls of [AddNotification]. *)
Definition AddNotifications (self : t) (news : list GlobalNotification.t) : t :=
  foldl AddNotification self news.

End GlobalNotificationSet.

Module GlobalNotificationStorage.

(** The AFF4 object at [aff4:/config/global_notifications]. *)
Record t : Type := Make { NOTIFICATIONS : option GlobalNotificationSet.t }.

Definition GetNotifications (self : t) : GlobalNotificationSet.t :=
  default GlobalNotificationSet.empty (NOTIFICATIONS self).

Definition AddNotification (self : t) (new_notification : GlobalNotification.t) : t :=
  let current_set := GetNotifications self in
  let current_set := GlobalNotificationSet.AddNotification current_set new_notification in
  Make (Some current_set).

(** A sequence of calls of [AddNotification] on the storage object. *)
Definition AddNotifications (self : t) (news : list GlobalNotification.t) : t :=
  foldl AddNotification self news.

End GlobalNotificationStorage.

Module GRRUser.

(** The attributes of the schema that hold a [NotificationList]. *)
Inductive Attribute : Type := PENDING_NOTIFICATIONS | SHOWN_NOTIFICATIONS.

#[global] Instance Attribute_eq_dec : EqDecision Attribute.
Proof. solve_decision. Defined.

(** Modelled from the spec: the AFF4 object store ([Get], [Set], [Flush]
    of [aff4.AFF4Object]) is not part of the sources. The object holds at
    most one value per attribute; [Get] hands out that very value (not a
    copy) or the default when there is none, [Set] makes a value the
    attribute's and buffers the write, [Flush] commits the buffered writes
    to the data store. *)
Record t : Type := Make {
  pending_notifications : option NotificationList;
  shown_notifications : option NotificationList;
  shown_global_notifications : option GlobalNotificationSet.t;
  password : option CryptedPassword.t;
  (** attributes written by [Set] and not yet flushed *)
  buffered : list Attribute;
  (** what the data store holds *)
  flushed : Attribute -> option NotificationList
}.

Definition held (a : Attribute) (self : t) : option NotificationList :=
  match a with
  | PENDING_NOTIFICATIONS => pending_notifications self
  | SHOWN_NOTIFICATIONS => shown_notifications self
  end.

Definition hold (a : Attribute) (v : NotificationList) (self : t) : t :=
  match a with
  | PENDING_NOTIFICATIONS =>
      Make (Some v) (shown_notifications self) (shown_global_notifications self)
           (password self) (buffered self) (flushed self)
  | SHOWN_NOTIFICATIONS =>
      Make (pending_notifications self) (Some v) (shown_global_notifications self)
           (password self) (buffered self) (flushed self)
  end.

(** A method runs on the object, may change it, and returns or raises. *)
Definition M (A : Type) : Type := t -> outcome A * t.

#[global] Instance M_ret : MRet M := fun A a self => (Returned a, self).

#[global] Instance M_bind : MBind M := fun A B f m self =>
  match m self with
  | (Returned a, self') => f a self'
  | (Raised e, self') => (Raised e, self')
  end.

Definition raise {A} (e : exn) : M A := fun self => (Raised e, self).

(** A variable bound to a [NotificationList]: the object is either the one
    the user object holds for an attribute, so that changing it changes what
    [Get] gives from then on, or one made during the call by
    [self.Schema.ATTRIBUTE()] and held by nothing else. Both know their
    attribute ([attribute_instance]). *)
Inductive ref : Type :=
| Held (a : Attribute)
| Own (a : Attribute) (items : NotificationList).

Definition attribute_instance (r : ref) : Attribute :=
  match r with Held a => a | Own a _ => a end.

(** [self.Schema.ATTRIBUTE()] *)
Definition Schema_new (a : Attribute) : ref := Own a [].

(** [self.Get(attribute)], whose default is [None]. *)
Definition Get (a : Attribute) : M (option ref) := fun self =>
  (Returned (match held a self with Some _ => Some (Held a) | None => None end), self).

(** The entries of the object a variable is bound to. *)
Definition items_of (r : ref) (self : t) : NotificationList :=
  match r with Held a => default [] (held a self) | Own _ l => l end.

Definition items (r : ref) : M NotificationList := fun self =>
  (Returned (items_of r self), self).

(** The variable once the entries of its object have become [l], and the
    user object once they have. *)
Definition rebind (r : ref) (l : NotificationList) : ref :=
  match r with Held a => Held a | Own a _ => Own a l end.

Definition write (r : ref) (l : NotificationList) (self : t) : t :=
  match r with Held a => hold a l self | Own _ _ => self end.

Definition assign (r : ref) (l : NotificationList) : M ref := fun self =>
  (Returned (rebind r l), write r l self).

(** A variable bound to a held object is bound to one that exists. *)
Definition bound (r : ref) (self : t) : Prop :=
  match r with Held a => is_Some (held a self) | Own _ _ => True end.

(** [r.Append(n)] *)
Definition Append (r : ref) (n : Notification.t) : M ref :=
  l ← items r; assign r (l ++ [n]).

(** [r.Pop(idx)] *)
Definition Pop (r : ref) (idx : nat) : M ref :=
  l ← items r;
  match l !! idx with
  | None => raise IndexError
  | Some _ => assign r (delete idx l)
  end.

(** [self.Set(attribute, r)] *)
Definition Set_ (a : Attribute) (r : ref) : M unit := fun self =>
  let self := hold a (items_of r self) self in
  (Returned (),
   Make (pending_notifications self) (shown_notifications self)
        (shown_global_notifications self) (password self)
        (a :: buffered self) (flushed self)).

(** [self.Set(r)]: the attribute is the value's own. *)
Definition Set1 (r : ref) : M unit := Set_ (attribute_instance r) r.

(** [self.Flush()] *)
Definition Flush : M unit := fun self =>
  (Returned (),
   Make (pending_notifications self) (shown_notifications self)
        (shown_global_notifications self) (password self)
        []
        (fun a => if bool_decide (a ∈ buffered self) then held a self
                  else flushed self a)).

(** [for x in xs: body(x)], threading the loop's variables [acc]. *)
Fixpoint for_each {X S : Type} (xs : list X) (body : X -> S -> M S) (acc : S) : M S :=
  match xs with
  | [] => mret acc
  | x :: xs' => acc' ← body x acc; for_each xs' body acc'
  end.

Section methods.

(** [rdf_flows.Notification.notification_types] *)
Variable notification_types : list string.

(** [while len(pending) > 50: pending.Pop(0)]; every round removes an
    entry, so the loop runs at most [len(pending)] rounds. *)
Fixpoint expire_older (rounds : nat) (pending : ref) : M ref :=
  match rounds with
  | O => mret pending
  | S rounds' =>
      l ← items pending;
      if (50 <? length l)%nat then
        pending ← Pop pending 0;
        expire_older rounds' pending
      else mret pending
  end.

(** [Notify(message_type, subject, msg, source)]; [now] is
    [long(time.time() * 1e6)]. *)
Definition Notify (now : Z) (message_type subject msg source : string) : M unit :=
  pending ← Get PENDING_NOTIFICATIONS;
  let pending := match pending with
                 | None => Schema_new PENDING_NOTIFICATIONS
                 | Some pending => pending
                 end in
  if negb (bool_decide (message_type ∈ notification_types)) then
    raise TypeError
  else
    pending ← Append pending (Notification.Make message_type subject msg source now);
    l ← items pending;
    pending ← expire_older (length l) pending;
    Set_ PENDING_NOTIFICATIONS pending.

(** The body of the loop of [DeletePendingNotification]; the loop's
    variables are [shown_notifications], [pending] and [delete_count]. *)
Definition move_if_match (timestamp : Z) (idx : nat)
    (acc : ref * ref * nat) : M (ref * ref * nat) :=
  let '(shown_notifications, pending, delete_count) := acc in
  l ← items pending;
  match l !! idx with
  | None => raise IndexError
  | Some n =>
      if (Notification.timestamp n =? timestamp)%Z then
        shown_notifications ← Append shown_notifications n;
        pending ← Pop pending idx;
        mret (shown_notifications, pending, S delete_count)
      else mret (shown_notifications, pending, delete_count)
  end.

Definition DeletePendingNotification (timestamp : Z) : M unit :=
  shown_notifications ← Get SHOWN_NOTIFICATIONS;
  shown_notifications ←
    match shown_notifications with
    | None => mret (Schema_new SHOWN_NOTIFICATIONS)
    | Some r =>
        l ← items r;
        if negb (bool_decide (l ≠ [])) then mret (Schema_new SHOWN_NOTIFICATIONS)
        else mret r
    end;
  pending ← Get PENDING_NOTIFICATIONS;
  match pending with
  | None => mret ()
  | Some pending =>
      l ← items pending;
      if negb (bool_decide (l ≠ [])) then mret ()
      else
        '(shown_notifications, pending, delete_count) ←
          for_each (reverse (seq 0 (length l))) (move_if_match timestamp)
                   (shown_notifications, pending, 0%nat);
        if (1 <? delete_count)%nat then raise UniqueKeyError
        else
          Set_ PENDING_NOTIFICATIONS pending;;
          Set_ SHOWN_NOTIFICATIONS shown_notifications
  end.

(** [self.Get(attribute, [])] read as a sequence. *)
Definition Get_or_empty (a : Attribute) : M NotificationList := fun self =>
  (Returned (default [] (held a self)), self).

(** [ShowNotifications(reset=True)]; the value is the returned list, by
    its entries. *)
Definition ShowNotifications (reset : bool) : M NotificationList :=
  let shown_notifications := Schema_new SHOWN_NOTIFICATIONS in
  pending ← Get_or_empty PENDING_NOTIFICATIONS;
  shown_notifications ←
    for_each pending (fun notification r => Append r notification) shown_notifications;
  notifications ← Get_or_empty SHOWN_NOTIFICATIONS;
  shown_notifications ←
    for_each notifications (fun notification r => Append r notification)
             shown_notifications;
  (if reset then
     Set1 shown_notifications;;
     Set1 (Schema_new PENDING_NOTIFICATIONS);;
     Flush
   else mret ());;
  items shown_notifications.

(** A call of [Notify], by its arguments: the clock's reading, the type,
    the subject, the message and the source. *)
Record call : Type := Call {
  call_now : Z;
  call_type : string;
  call_subject : string;
  call_msg : string;
  call_source : string
}.

(** The entry a call of [Notify] appends. *)
Definition entry (c : call) : Notification.t :=
  Notification.Make (call_type c) (call_subject c) (call_msg c) (call_source c) (call_now c).

Definition Notify_call (c : call) : M unit :=
  Notify (call_now c) (call_type c) (call_subject c) (call_msg c) (call_source c).

(** The calls of a sequence, one after the other, up to the first that
    raises. *)
Definition Notify_calls (calls : list call) : M unit :=
  for_each calls (fun c _ => Notify_call c) ().

End methods.

(** What a method can return to its caller. *)
Inductive pyvalue : Type :=
| PyNone
| PyBool (b : bool)
| PyCryptedPassword (password_obj : CryptedPassword.t).

(** The truth value of a returned value. *)
Definition truth (v : pyvalue) : bool :=
  match v with
  | PyNone => false
  | PyBool b => b
  | PyCryptedPassword password_obj => CryptedPassword.nonzero password_obj
  end.

(** [self.Get(self.Schema.PASSWORD)] *)
Definition Get_PASSWORD (self : t) : option CryptedPassword.t := password self.

(** [CheckPassword(password)]:
    [password_obj and password_obj.CheckPassword(password)]. *)
Definition CheckPassword (crypt : option (string -> string -> string))
    (password : string) : M pyvalue := fun self =>
  match Get_PASSWORD self with
  | None => (Returned PyNone, self)
  | Some password_obj =>
      if negb (CryptedPassword.nonzero password_obj) then
        (Returned (PyCryptedPassword password_obj), self)
      else
        match CryptedPassword.CheckPassword crypt password_obj password with
        | Returned b => (Returned (PyBool b), self)
        | Raised e => (Raised e, self)
        end
  end.

(** The loop of [GetPendingGlobalNotifications]; [Now k] is what the
    [k]-th call of [RDFDatetime.Now()] gives, [reads] counts the calls
    made so far. *)
Fixpoint pending_global (Now : nat -> RDFDatetime.t)
    (shown_notifications : GlobalNotificationSet.t)
    (current_notifications : list GlobalNotification.t)
    (reads : nat) (result : list GlobalNotification.t) : list GlobalNotification.t :=
  match current_notifications with
  | [] => result
  | notification :: rest =>
      if GlobalNotificationSet.contains shown_notifications notification then
        pending_global Now shown_notifications rest reads result
      else
        let current_time := Now reads in
        if (datetime_add (GlobalNotification.show_from notification)
                         (GlobalNotification.duration notification) >=? current_time)%Z
           && (current_time >=? GlobalNotification.show_from notification)%Z
        then pending_global Now shown_notifications rest (S reads)
                            (result ++ [notification])
        else pending_global Now shown_notifications rest (S reads) result
  end.

Definition GetPendingGlobalNotifications (storage : GlobalNotificationStorage.t)
    (Now : nat -> RDFDatetime.t) : M (list GlobalNotification.t) := fun self =>
  let current_notifications := GlobalNotificationStorage.GetNotifications storage in
  let shown_notifications :=
    default GlobalNotificationSet.empty (shown_global_notifications self) in
  (Returned (pending_global Now shown_notifications
               (GlobalNotificationSet.iter current_notifications) 0%nat []),
   self).

Definition SYSTEM_USERS : list string :=
  ["GRRWorker"; "GRRCron"; "GRRSystem"; "GRRFrontEnd"; "GRRConsole";
   "GRRArtifactRegistry"; "GRRStatsStore"; "GRREndToEndTest"; "GRR"].

Definition _SYSTEM_USERS_LOWERCASE : list string := Str.lower <$> SYSTEM_USERS.

(** [IsValidUsername(username)] *)
Definition IsValidUsername (username : string) : bool :=
  negb (bool_decide (Str.lower username ∈ _SYSTEM_USERS_LOWERCASE)).

(** [SetPassword(password)]:
    [self.Set(self.Schema.PASSWORD().SetPassword(password))]; [ulong] is what
    the generator draws for the salt. The password becomes the user
    object's; the buffer of writes is kept for the notification lists only. *)
Definition SetPassword (ulong : N) (password : string) : M unit := fun self =>
  let password_obj :=
    CryptedPassword.SetPassword ulong (CryptedPassword.Make "") password None in
  (Returned (),
   Make (pending_notifications self) (shown_notifications self)
        (shown_global_notifications self) (Some password_obj)
        (buffered self) (flushed self)).

(** [Describe()]; [basename] is [self.urn.Basename()] and [labels] are the
    names of [self.GetLabels()]. *)
Definition Describe (basename : string) (labels : list string) (self : t) : string :=
  let result := [String Str.newline "Username: " +:+ basename] in
  let result := result ++ ["Labels: " +:+ Str.join "," labels] in
  let result :=
    match Get_PASSWORD self with
    | None => result ++ ["Password: not set"]
    | Some _ => result ++ ["Password: set"]
    end in
  Str.join (String Str.newline "") result.

(** [MarkGlobalNotificationAsShown(notification)]. [Get] is called without
    a default: [unset] is what it then gives for an attribute that was never
    set, a set or [None]; on [None] the call of [AddNotification] fails with
    an [AttributeError] and the method with it, which is the result [None]
    here. The buffer of writes is kept for the notification lists only. *)
Definition MarkGlobalNotificationAsShown (unset : option GlobalNotificationSet.t)
    (notification : GlobalNotification.t) (self : t) : option t :=
  let shown_notifications :=
    match shown_global_notifications self with
    | Some shown_notifications => Some shown_notifications
    | None => unset
    end in
  match shown_notifications with
  | None => None
  | Some shown_notifications =>
      let shown_notifications :=
        GlobalNotificationSet.AddNotification shown_notifications notification in
      Some (Make (pending_notifications self) (GRRUser.shown_notifications self)
                 (Some shown_notifications) (password self)
                 (buffered self) (flushed self))
  end.

End GRRUser.

(** A user for whom no attribute has ever been set. *)
Definition new_user : GRRUser.t := GRRUser.Make None None None None [] (fun _ => None).

(** A user with 50 pending notifications, of timestamps 1 to 50. *)
Definition full_user : GRRUser.t :=
  GRRUser.Make
    (Some (map (fun i => Notification.Make "ViewObject" "aff4:/C.0" "seen" "Flow" (Z.of_nat i))
               (seq 1 50)))
    None None None [] (fun _ => None).

(** A user with three pending notifications, two of them of timestamp 7, and
    nothing shown. *)
Definition duplicate_user : GRRUser.t :=
  GRRUser.Make
    (Some [Notification.Make "ViewObject" "aff4:/C.1" "a" "Flow" 7;
           Notification.Make "ViewObject" "aff4:/C.2" "b" "Flow" 8;
           Notification.Make "ViewObject" "aff4:/C.3" "c" "Flow" 7])
    None None None [] (fun _ => None).

(** A registry with an INFO notification whose window is over at time 100, a
    WARNING whose window contains it and an ERROR to be shown later. *)
Definition sample_storage : GlobalNotificationStorage.t :=
  foldl GlobalNotificationStorage.AddNotification (GlobalNotificationStorage.Make None)
    [ GlobalNotification.Make GlobalNotification.ERROR "outage tomorrow" None 500%Z 1%Z;
      GlobalNotification.Make GlobalNotification.WARNING "disk full" None 50%Z 1%Z;
      GlobalNotification.Make GlobalNotification.INFO "welcome" None 1%Z 0%Z ].

(** * Properties *)

(** ** Test vectors *)

Example sha256_constants :
    length SHA256.K = 64%nat /\ SHA256.K !! 0%nat = Some 0x428a2f98 /\
    SHA256.K !! 63%nat = Some 0xc67178f2 /\
    SHA256.H0 !! 0%nat = Some 0x6a09e667 /\ SHA256.H0 !! 7%nat = Some 0x5be0cd19.
Proof. repeat split. Qed.

Example sha256_two_blocks :
    SHA256.hexdigest
      "aaaaaaaaaaaaaaaaaaaaaaaaaaaaaaaaaaaaaaaaaaaaaaaaaaaaaaaaaaaaaaaaaaaaaa" =
    "6bd5e5034855a11241f0dee8fc72850ffd9955b28347a86428b5fa19119f6ad0".
Proof. vm_compute. reflexivity. Qed.

Example sha256_abc :
  SHA256.hexdigest "abc" =
  "ba7816bf8f01cfea414140de5dae2223b00361a396177a9cb410ff61f20015ad".
Proof. vm_compute. reflexivity. Qed.

Example sha256_empty :
  SHA256.hexdigest "" =
  "e3b0c44298fc1c149afbf4c8996fb92427ae41e4649b934ca495991b7852b855".
Proof. vm_compute. reflexivity. Qed.

Example set_password_explicit_salt :
  CryptedPassword._value
    (CryptedPassword.SetPassword 0 (CryptedPassword.Make "") "pw" (Some "a")) =
  "sha256$a$074cac81c4ca861df49b80a37d71f4002b59bf8cffae91464a0a3d858b4b9502".
Proof. vm_compute. reflexivity. Qed.

Example set_password_drawn_salt :
  CryptedPassword._value
    (CryptedPassword.SetPassword 42 (CryptedPassword.Make "") "hunter2" None) =
  "sha256$0000002a$f402017c090274340a7e8d2bb159c08d7f364af5a4c57f94e5474b690856c0c5".
Proof. vm_compute. reflexivity. Qed.

Example format_08x_wide : Str.format_08x 1099511627781 = "10000000005".
Proof. vm_compute. reflexivity. Qed.

Example split_example :
  Str.split "$" "sha256$a$b$cd" = ["sha256"; "a"; "b"; "cd"].
Proof. reflexivity. Qed.


(** ** Byte strings *)

Section str_facts.

Lemma chars_inj (a b : string) : Str.chars a = Str.chars b -> a = b.
Proof.
  unfold Str.chars. intros H.
  rewrite <- (string_of_list_ascii_of_string a), <- (string_of_list_ascii_of_string b).
  by rewrite H.
Qed.

Lemma len_chars (s : string) : Str.len s = length (Str.chars s).
Proof. induction s as [|c s IH]; simpl; [done | by rewrite <- IH]. Qed.

Lemma ord_inj (x y : ascii) : Str.ord x = Str.ord y -> x = y.
Proof.
  unfold Str.ord. intros H.
  rewrite <- (ascii_N_embedding x), <- (ascii_N_embedding y). by rewrite H.
Qed.

Lemma startswith_app (p s : string) : Str.startswith (p +:+ s) p = true.
Proof. induction p as [|c p IH]; simpl; [done | by rewrite Ascii.eqb_refl]. Qed.


(** Splitting just after a piece that has no separator in it. *)
Lemma split_app_sep (sep : ascii) (s r : string) :
  Str.contains sep s = false ->
  Str.split sep (s +:+ String sep r) = s :: Str.split sep r.
Proof.
  induction s as [|c s IH]; simpl.
  - intros _. by rewrite Ascii.eqb_refl.
  - intros [Hc Hs]%orb_false_iff. rewrite Hc, (IH Hs). done.
Qed.

Lemma contains_app (sep : ascii) (s r : string) :
  Str.contains sep (s +:+ r) = Str.contains sep s || Str.contains sep r.
Proof.
  induction s as [|c s IH]; simpl; [done |]. by rewrite IH, orb_assoc.
Qed.

Lemma hex_digit_not_dollar (d : N) : d < 16 -> Str.hex_digit d ≠ "$"%char.
Proof.
  intros Hd Heq. apply (f_equal N_of_ascii) in Heq.
  unfold Str.hex_digit in Heq.
  destruct (N.ltb_spec d 10);
    rewrite N_ascii_embedding in Heq by lia; simpl in Heq; lia.
Qed.

Lemma hex_fixed_no_dollar (w : nat) (x : N) :
  Str.contains "$" (Str.hex_fixed w x) = false.
Proof.
  revert x. induction w as [|w IH]; intros x; simpl; [done |].
  rewrite contains_app, IH. simpl. rewrite orb_false_r.
  apply Ascii.eqb_neq, hex_digit_not_dollar, N.mod_lt. done.
Qed.

End str_facts.

(** ** The secret comparison *)

Section safe_str_cmp_facts.

Import CryptedPassword.

Let step (rv : N) (xy : ascii * ascii) : N :=
  N.lor rv (N.lxor (Str.ord xy.1) (Str.ord xy.2)).

Lemma accumulate_zero (pairs : list (ascii * ascii)) (rv : N) :
  fold_left step pairs rv = 0 <->
  rv = 0 /\ Forall (fun xy => N.lxor (Str.ord xy.1) (Str.ord xy.2) = 0) pairs.
Proof.
  revert rv. induction pairs as [|xy pairs IH]; intros rv; simpl.
  - split; [intros ->; by split | by intros [-> _]].
  - rewrite IH, Forall_cons. unfold step. rewrite N.lor_eq_0_iff. simpl. tauto.
Qed.

Lemma xor_accumulate_zero (a b : string) :
  xor_accumulate a b = 0 <->
  forall i x y, Str.chars a !! i = Some x -> Str.chars b !! i = Some y ->
                N.lxor (Str.ord x) (Str.ord y) = 0.
Proof.
  unfold xor_accumulate. etrans; [exact (accumulate_zero _ 0) |].
  rewrite Forall_lookup. split.
  - intros [_ H] i x y Hx Hy. apply (H i (x, y)).
    apply lookup_zip_with_Some. eauto.
  - intros H. split; [done |]. intros i [x y] Hxy.
    apply lookup_zip_with_Some in Hxy as (x' & y' & [= -> ->] & Hx & Hy). eauto.
Qed.

Lemma xor_accumulate_eq (a b : string) :
  Str.len a = Str.len b -> (xor_accumulate a b = 0 <-> a = b).
Proof.
  intros Hlen. rewrite xor_accumulate_zero. split.
  - intros H. apply chars_inj, list_eq_same_length with (length (Str.chars a)).
    + by rewrite <- !len_chars.
    + done.
    + intros i x y _ Hx Hy. apply ord_inj, N.lxor_eq. eauto.
  - intros -> i x y Hx Hy. rewrite Hx in Hy. injection Hy as ->.
    apply N.lxor_nilpotent.
Qed.

Lemma safe_str_cmp_true (a b : string) : safe_str_cmp a b = true <-> a = b.
Proof.
  unfold safe_str_cmp. destruct (Nat.eqb_spec (Str.len a) (Str.len b)) as [Hlen|Hlen]; simpl.
  - by rewrite N.eqb_eq, xor_accumulate_eq.
  - split; [done | intros ->; done].
Qed.

End safe_str_cmp_facts.

(** C6. [safe_str_cmp] reports a mismatch at once when the lengths differ;
    when they are equal its result is whether the accumulator is zero, the
    accumulator is zero exactly when every pair of bytes, at every index of
    the strings, XORs to zero, and so the comparison succeeds exactly when the
    two strings are equal. *)
Theorem safe_str_cmp_spec (a b : string) :
  (Str.len a ≠ Str.len b -> CryptedPassword.safe_str_cmp a b = false) /\
  (Str.len a = Str.len b ->
     CryptedPassword.safe_str_cmp a b = (CryptedPassword.xor_accumulate a b =? 0) /\
     (CryptedPassword.xor_accumulate a b = 0 <->
      forall i x y, Str.chars a !! i = Some x -> Str.chars b !! i = Some y ->
                    N.lxor (Str.ord x) (Str.ord y) = 0)) /\
  (CryptedPassword.safe_str_cmp a b = true <-> a = b).
Proof.
  split; [| split].
  - intros Hlen. unfold CryptedPassword.safe_str_cmp.
    by destruct (Nat.eqb_spec (Str.len a) (Str.len b)).
  - intros Hlen. split; [| apply xor_accumulate_zero].
    unfold CryptedPassword.safe_str_cmp. by rewrite Hlen, Nat.eqb_refl.
  - apply safe_str_cmp_true.
Qed.

Lemma safe_str_cmp_spec_witness :
  CryptedPassword.safe_str_cmp "abc" "abcd" = false /\
  CryptedPassword.safe_str_cmp "abc" "abd" = (CryptedPassword.xor_accumulate "abc" "abd" =? 0) /\
  (CryptedPassword.safe_str_cmp "abc" "abc" = true <-> "abc" = "abc").
Proof.
  split; [| split].
  - apply (safe_str_cmp_spec "abc" "abcd"). simpl. lia.
  - apply (safe_str_cmp_spec "abc" "abd"). reflexivity.
  - apply (safe_str_cmp_spec "abc" "abc").
Defined.

(** ** Setting and checking a password *)

Section password_facts.

Import CryptedPassword.

Lemma template_startswith (pwhash salt : string) :
  Str.startswith (_MakeTemplate pwhash salt) "sha256$" = true.
Proof. exact (startswith_app "sha256$" (salt +:+ "$" +:+ pwhash)). Qed.

Lemma template_split (pwhash salt : string) :
  Str.contains "$" salt = false ->
  Str.split "$" (_MakeTemplate pwhash salt) !! 1%nat = Some salt.
Proof.
  intros Hsalt.
  change (_MakeTemplate pwhash salt) with ("sha256" +:+ String "$" (salt +:+ String "$" pwhash)).
  rewrite (split_app_sep "$" "sha256") by reflexivity.
  by rewrite (split_app_sep "$" salt) by assumption.
Qed.

Lemma check_own_hash crypt (password salt : string) :
  Str.contains "$" salt = false ->
  CheckPassword crypt (Make (_CalculateHash password salt)) password = Returned true.
Proof.
  intros Hsalt. unfold CheckPassword, _CalculateHash. cbn [_value].
  rewrite template_startswith, template_split by assumption. cbn [negb].
  f_equal. by apply safe_str_cmp_true.
Qed.

End password_facts.

(** C1, where it fails: with the salt [a$b] the credential is
    [sha256$a$b$<digest>], the check takes [a] for the salt, and the password
    that was set is refused. *)
Lemma CheckPassword_SetPassword_counterexample :
  CryptedPassword.CheckPassword None
    (CryptedPassword.SetPassword 0 (CryptedPassword.Make "") "pw" (Some "a$b")) "pw"
  = Returned false.
Proof. vm_compute. reflexivity. Qed.

(** C1, amended. For every password, and every salt that is either drawn by
    [SetPassword] itself or given and free of the separator [$], checking the
    password against the credential [SetPassword] produced returns true. *)
Theorem CheckPassword_SetPassword crypt (ulong : N) (self : CryptedPassword.t)
    (password : string) (salt : option string) :
  (forall s, salt = Some s -> Str.contains "$" s = false) ->
  CryptedPassword.CheckPassword crypt
    (CryptedPassword.SetPassword ulong self password salt) password
  = Returned true.
Proof.
  intros Hsalt. unfold CryptedPassword.SetPassword.
  apply check_own_hash. destruct salt as [s|].
  - by apply Hsalt.
  - apply hex_fixed_no_dollar.
Qed.

Lemma CheckPassword_SetPassword_witness :
  CryptedPassword.CheckPassword None
    (CryptedPassword.SetPassword 0 (CryptedPassword.Make "") "pw" (Some "ab")) "pw"
  = Returned true.
Proof.
  apply (CheckPassword_SetPassword None 0 (CryptedPassword.Make "") "pw" (Some "ab")).
  intros s [= <-]. reflexivity.
Defined.

(** ** The user's password *)

(** C2, where it fails: for a user with no password, [CheckPassword("x")]
    raises nothing; it returns [None], the value of the missing attribute, a
    value that is false in a boolean context. *)
Lemma CheckPassword_no_password_counterexample :
  GRRUser.CheckPassword None "x" new_user = (Returned GRRUser.PyNone, new_user) /\
  is_raised (GRRUser.CheckPassword None "x" new_user).1 = false /\
  GRRUser.truth GRRUser.PyNone = false.
Proof. repeat split. Qed.

(** C2, amended. For every user whose password attribute is absent and every
    candidate, [CheckPassword] raises no error: it returns [None] (not the
    boolean false, though as false as it in a boolean context) and leaves the
    user unchanged. *)
Theorem CheckPassword_no_password crypt (candidate : string) (self : GRRUser.t) :
  GRRUser.Get_PASSWORD self = None ->
  GRRUser.CheckPassword crypt candidate self = (Returned GRRUser.PyNone, self) /\
  GRRUser.PyNone ≠ GRRUser.PyBool false /\
  GRRUser.truth GRRUser.PyNone = false.
Proof.
  intros Habsent. unfold GRRUser.CheckPassword. rewrite Habsent. done.
Qed.

Lemma CheckPassword_no_password_witness :
  GRRUser.CheckPassword None "x" new_user = (Returned GRRUser.PyNone, new_user) /\
  GRRUser.PyNone ≠ GRRUser.PyBool false /\
  GRRUser.truth GRRUser.PyNone = false.
Proof. apply (CheckPassword_no_password None "x" new_user). reflexivity. Defined.

(** ** The notification inbox *)

Lemma bind_eq {A B} (m : GRRUser.M A) (f : A -> GRRUser.M B) (self : GRRUser.t) :
  (m ≫= f) self =
  match m self with
  | (Returned a, self') => f a self'
  | (Raised e, self') => (Raised e, self')
  end.
Proof. reflexivity. Qed.

Lemma bind_returned {A B} (m : GRRUser.M A) (f : A -> GRRUser.M B)
    (self self' : GRRUser.t) (a : A) :
  m self = (Returned a, self') -> (m ≫= f) self = f a self'.
Proof. intros H. by rewrite bind_eq, H. Qed.

(** [run H]: the first command of the method returns, by the equation [H];
    go on with the rest. *)
Tactic Notation "run" uconstr(H) := rewrite (bind_returned _ _ _ _ _ H).

Section inbox_facts.

Import GRRUser.

Lemma items_eq (r : ref) (self : t) : items r self = (Returned (items_of r self), self).
Proof. by destruct r. Qed.

Lemma assign_eq (r : ref) (l : NotificationList) (self : t) :
  assign r l self = (Returned (rebind r l), write r l self).
Proof. by destruct r. Qed.

Lemma Append_eq (r : ref) (n : Notification.t) (self : t) :
  Append r n self =
  (Returned (rebind r (items_of r self ++ [n])), write r (items_of r self ++ [n]) self).
Proof. unfold Append. run (items_eq r self). by rewrite assign_eq. Qed.

Lemma Pop_eq (r : ref) (idx : nat) (self : t) :
  (idx < length (items_of r self))%nat ->
  Pop r idx self =
  (Returned (rebind r (delete idx (items_of r self))),
   write r (delete idx (items_of r self)) self).
Proof.
  intros Hidx. unfold Pop. run (items_eq r self).
  destruct (lookup_lt_is_Some_2 _ _ Hidx) as [x ->]. apply assign_eq.
Qed.

Lemma items_of_write (r : ref) (l : NotificationList) (self : t) :
  items_of (rebind r l) (write r l self) = l.
Proof. by destruct r as [[]|]. Qed.

Lemma rebind_rebind (r : ref) (l l' : NotificationList) :
  rebind (rebind r l) l' = rebind r l'.
Proof. by destruct r. Qed.

Lemma write_write (r : ref) (l l' : NotificationList) (self : t) :
  write (rebind r l) l' (write r l self) = write r l' self.
Proof. by destruct r as [[]|]. Qed.

Lemma write_same (r : ref) (self : t) :
  bound r self -> write r (items_of r self) self = self.
Proof.
  destruct r as [[]|]; destruct self; simpl; [| | done]; intros [l Hl]; simpl in *; by subst.
Qed.

Lemma rebind_same (r : ref) (self : t) : rebind r (items_of r self) = r.
Proof. by destruct r. Qed.

Lemma bound_write (r : ref) (l : NotificationList) (self : t) :
  bound (rebind r l) (write r l self).
Proof. destruct r as [[]|]; simpl; eauto. Qed.

(** The eviction loop removes the entries in excess of 50 from the front,
    given as many rounds as there are entries in excess. *)
Lemma expire_older_eq (rounds : nat) (r : ref) (self : t) :
  bound r self ->
  (length (items_of r self) - 50 <= rounds)%nat ->
  let kept := drop (length (items_of r self) - 50) (items_of r self) in
  expire_older rounds r self = (Returned (rebind r kept), write r kept self).
Proof.
  revert r self. induction rounds as [|rounds IH]; intros r self Hb Hlen kept; subst kept.
  - replace (length (items_of r self) - 50)%nat with 0%nat by lia.
    rewrite drop_0, rebind_same, write_same by done. done.
  - cbn [expire_older]. run (items_eq r self).
    destruct (Nat.ltb_spec 50 (length (items_of r self))) as [Hgt|Hle].
    + destruct (items_of r self) as [|x l] eqn:Hl; [simpl in Hgt; lia |].
      run (Pop_eq r 0 self ltac:(rewrite Hl; simpl; lia)).
      rewrite Hl. cbn [delete list_delete].
      rewrite IH; rewrite ?items_of_write; [| apply bound_write | simpl in *; lia].
      rewrite rebind_rebind, write_write.
      replace (length (x :: l) - 50)%nat with (S (length l - 50)) by (simpl in *; lia).
      done.
    + replace (length (items_of r self) - 50)%nat with 0%nat by lia.
      rewrite drop_0, rebind_same, write_same by done. done.
Qed.

End inbox_facts.

Section notify_facts.

Import GRRUser.

Variable notification_types : list string.

Lemma Notify_valid_type (now : Z) (message_type subject msg source : string) (self : t) :
  message_type ∈ notification_types ->
  let before := default [] (pending_notifications self) in
  let added := before ++ [Notification.Make message_type subject msg source now] in
  Notify notification_types now message_type subject msg source self =
  (Returned (),
   Make (Some (drop (length added - 50) added)) (shown_notifications self)
        (shown_global_notifications self) (password self)
        (PENDING_NOTIFICATIONS :: buffered self) (flushed self)).
Proof.
  intros Hty before added. unfold Notify. rewrite bind_eq. unfold Get at 1.
  rewrite (bool_decide_eq_true_2 _ Hty). cbn [negb].
  set (pending := match match held PENDING_NOTIFICATIONS self with
                        | Some _ => Some (Held PENDING_NOTIFICATIONS)
                        | None => None
                        end with
                  | Some pending => pending
                  | None => Schema_new PENDING_NOTIFICATIONS
                  end).
  assert (Hbound : bound pending self).
  { subst pending. simpl. destruct (pending_notifications self) eqn:E; simpl; rewrite ?E; [by eexists | done]. }
  assert (Hitems : items_of pending self = before).
  { subst pending before. simpl. destruct (pending_notifications self) eqn:E; simpl; by rewrite ?E. }
  assert (Hwrite : forall l, hold PENDING_NOTIFICATIONS l (write pending l self)
                             = hold PENDING_NOTIFICATIONS l self).
  { intros l. subst pending. simpl. by destruct (pending_notifications self) eqn:E. }
  run (Append_eq pending _ self). rewrite Hitems. fold added.
  run (items_eq _ _). rewrite items_of_write.
  erewrite bind_returned; last first.
  { apply expire_older_eq; rewrite ?items_of_write; [apply bound_write | lia]. }
  rewrite items_of_write, rebind_rebind, write_write.
  unfold Set_. rewrite items_of_write, Hwrite. done.
Qed.

End notify_facts.

(** C9. When the message type is not one of the notification types,
    [Notify] raises [TypeError] and the user object is exactly what it was:
    nothing pending, shown, buffered or stored has changed. *)
Theorem Notify_invalid_type (notification_types : list string) (now : Z)
    (message_type subject msg source : string) (self : GRRUser.t) :
  message_type ∉ notification_types ->
  GRRUser.Notify notification_types now message_type subject msg source self =
  (Raised TypeError, self).
Proof.
  intros Hty. unfold GRRUser.Notify. rewrite bind_eq. unfold GRRUser.Get at 1.
  by rewrite (bool_decide_eq_false_2 _ Hty).
Qed.

Lemma Notify_invalid_type_witness :
  GRRUser.Notify ["ViewObject"; "HostInformation"; "GrantAccess"] 5
                 "Telepathy" "aff4:/C.1" "hello" "Flow" new_user =
  (Raised TypeError, new_user).
Proof.
  apply (Notify_invalid_type ["ViewObject"; "HostInformation"; "GrantAccess"] 5
                             "Telepathy" "aff4:/C.1" "hello" "Flow" new_user).
  vm_compute. intros H. repeat (apply elem_of_cons in H as [H|H]; [discriminate H |]).
  by apply elem_of_nil in H.
Defined.

(** C4. From any user object, along any sequence of calls of [Notify] with
    recognised types, every call returns, and after it the pending list has
    at most 50 entries: it is the former pending list with the new entry
    added at the end, less the entries in excess of 50, which are dropped
    from the front (the oldest); the new entry is the last one. *)
Theorem Notify_capacity (notification_types : list string)
    (calls : list GRRUser.call) (c : GRRUser.call) (self : GRRUser.t) :
  Forall (fun c => GRRUser.call_type c ∈ notification_types) (calls ++ [c]) ->
  exists self1 self2 after,
    GRRUser.Notify_calls notification_types calls self = (Returned (), self1) /\
    GRRUser.Notify_call notification_types c self1 = (Returned (), self2) /\
    GRRUser.pending_notifications self2 = Some after /\
    (length after <= 50)%nat /\
    (let before := default [] (GRRUser.pending_notifications self1) in
     after = drop (length before + 1 - 50) (before ++ [GRRUser.entry c])) /\
    last after = Some (GRRUser.entry c).
Proof.
  revert self. induction calls as [|c0 calls IH]; intros self Hvalid.
  - simpl in Hvalid. rewrite Forall_singleton in Hvalid.
    eexists self, _, _. split; [done |]. split.
    { unfold GRRUser.Notify_call. by apply Notify_valid_type. }
    cbn [GRRUser.pending_notifications].
    set (before := default [] (GRRUser.pending_notifications self)).
    change (Notification.Make _ _ _ _ _) with (GRRUser.entry c).
    rewrite length_app. cbn [length]. repeat split.
    + rewrite length_drop, length_app. simpl. lia.
    + rewrite drop_app_le by lia. rewrite last_app. done.
  - simpl in Hvalid. apply Forall_cons in Hvalid as [Hc0 Hvalid].
    unfold GRRUser.Notify_calls. cbn [GRRUser.for_each].
    erewrite bind_returned; last first.
    { unfold GRRUser.Notify_call. by apply Notify_valid_type. }
    apply IH, Hvalid.
Qed.

Lemma Notify_capacity_witness :
  let types := ["ViewObject"; "HostInformation"; "GrantAccess"] in
  let c1 := GRRUser.Call 101 "ViewObject" "aff4:/C.1" "first" "Flow" in
  let c2 := GRRUser.Call 102 "GrantAccess" "aff4:/C.2" "second" "Flow" in
  exists self1 self2 after,
    GRRUser.Notify_calls types [c1] full_user = (Returned (), self1) /\
    GRRUser.Notify_call types c2 self1 = (Returned (), self2) /\
    GRRUser.pending_notifications self2 = Some after /\
    (length after <= 50)%nat /\
    (let before := default [] (GRRUser.pending_notifications self1) in
     after = drop (length before + 1 - 50) (before ++ [GRRUser.entry c2])) /\
    last after = Some (GRRUser.entry c2).
Proof.
  intros types c1 c2.
  apply (Notify_capacity types [c1] c2 full_user).
  repeat constructor.
Defined.

Section delete_facts.

Import GRRUser.

Variable timestamp : Z.

Let matching (n : Notification.t) : Prop := Notification.timestamp n = timestamp.
Let other (n : Notification.t) : Prop := Notification.timestamp n ≠ timestamp.

Lemma items_of_hold_pending (r : ref) (l : NotificationList) (self : t) :
  r ≠ Held PENDING_NOTIFICATIONS ->
  items_of r (hold PENDING_NOTIFICATIONS l self) = items_of r self.
Proof. by destruct r as [[]|]. Qed.

Lemma held_pending_write (r : ref) (l : NotificationList) (self : t) :
  r ≠ Held PENDING_NOTIFICATIONS ->
  held PENDING_NOTIFICATIONS (write r l self) = held PENDING_NOTIFICATIONS self.
Proof. by destruct r as [[]|]. Qed.

Lemma rebind_not_pending (r : ref) (l : NotificationList) :
  r ≠ Held PENDING_NOTIFICATIONS -> rebind r l ≠ Held PENDING_NOTIFICATIONS.
Proof. by destruct r as [[]|]. Qed.

Lemma write_hold_pending (r : ref) (l l' p p' : NotificationList) (self : t) :
  r ≠ Held PENDING_NOTIFICATIONS ->
  write (rebind r l) l'
        (hold PENDING_NOTIFICATIONS p' (hold PENDING_NOTIFICATIONS p (write r l self)))
  = write r l' (hold PENDING_NOTIFICATIONS p' self).
Proof. by destruct r as [[]|]. Qed.

Lemma hold_pending_same (r : ref) (p : NotificationList) (self : t) :
  held PENDING_NOTIFICATIONS self = Some p ->
  hold PENDING_NOTIFICATIONS p self = self.
Proof. destruct self; simpl; by intros ->. Qed.

Lemma bound_hold_pending (r : ref) (p : NotificationList) (self : t) :
  bound r self -> bound r (hold PENDING_NOTIFICATIONS p self).
Proof. destruct r as [[]|]; simpl; eauto. Qed.

Lemma items_of_held (a : Attribute) (l : NotificationList) (self : t) :
  held a self = Some l -> items_of (Held a) self = l.
Proof. cbn [items_of]. by intros ->. Qed.

(** One round of the loop at the index of an entry that has the timestamp. *)
Lemma move_if_match_hit (pre suf : NotificationList) (x : Notification.t)
    (shown : ref) (count : nat) (self : t) :
  shown ≠ Held PENDING_NOTIFICATIONS ->
  held PENDING_NOTIFICATIONS self = Some (pre ++ x :: suf) ->
  Notification.timestamp x = timestamp ->
  move_if_match timestamp (length pre) (shown, Held PENDING_NOTIFICATIONS, count) self
  = (Returned (rebind shown (items_of shown self ++ [x]), Held PENDING_NOTIFICATIONS,
               S count),
     hold PENDING_NOTIFICATIONS (pre ++ suf)
          (write shown (items_of shown self ++ [x]) self)).
Proof.
  intros Hne Hp Hx. unfold move_if_match.
  run (items_eq _ _). rewrite (items_of_held _ _ _ Hp).
  rewrite list_lookup_middle by done. rewrite (proj2 (Z.eqb_eq _ _) Hx).
  run (Append_eq _ _ _).
  assert (Hp' : items_of (Held PENDING_NOTIFICATIONS)
                         (write shown (items_of shown self ++ [x]) self)
                = pre ++ x :: suf).
  { apply items_of_held. by rewrite held_pending_write. }
  erewrite bind_returned; last first.
  { apply Pop_eq. rewrite Hp', length_app. simpl. lia. }
  rewrite Hp', delete_middle. done.
Qed.

(** One round of the loop at the index of an entry of another timestamp. *)
Lemma move_if_match_miss (pre suf : NotificationList) (x : Notification.t)
    (shown : ref) (count : nat) (self : t) :
  held PENDING_NOTIFICATIONS self = Some (pre ++ x :: suf) ->
  Notification.timestamp x ≠ timestamp ->
  move_if_match timestamp (length pre) (shown, Held PENDING_NOTIFICATIONS, count) self
  = (Returned (shown, Held PENDING_NOTIFICATIONS, count), self).
Proof.
  intros Hp Hx. unfold move_if_match.
  run (items_eq _ _). rewrite (items_of_held _ _ _ Hp).
  rewrite list_lookup_middle by done. by rewrite (proj2 (Z.eqb_neq _ _) Hx).
Qed.

(** The loop over the indices of [pre], from the last down to the first,
    when the pending list is [pre ++ suf]: the entries of [pre] with the
    timestamp leave the pending list and join the shown list, last first. *)
Lemma move_loop (pre suf : NotificationList) (shown : ref) (count : nat) (self : t) :
  shown ≠ Held PENDING_NOTIFICATIONS ->
  bound shown self ->
  held PENDING_NOTIFICATIONS self = Some (pre ++ suf) ->
  let shown' := items_of shown self ++ reverse (filter matching pre) in
  for_each (reverse (seq 0 (length pre))) (move_if_match timestamp)
           (shown, Held PENDING_NOTIFICATIONS, count) self
  = (Returned (rebind shown shown', Held PENDING_NOTIFICATIONS,
               (count + length (filter matching pre))%nat),
     write shown shown' (hold PENDING_NOTIFICATIONS (filter other pre ++ suf) self)).
Proof.
  revert suf shown count self.
  induction pre as [|x pre IH] using rev_ind; intros suf shown count self Hne Hb Hp shown'.
  - subst shown'. cbn [length seq]. rewrite !filter_nil, reverse_nil, app_nil_r, Nat.add_0_r.
    cbn [for_each]. rewrite rebind_same, (hold_pending_same shown) by done.
    by rewrite write_same.
  - subst shown'. rewrite length_app. cbn [length]. rewrite Nat.add_1_r, seq_S, reverse_snoc.
    cbn [for_each plus]. rewrite <- (assoc_L (++)) in Hp. cbn [app] in Hp.
    rewrite !filter_app, !filter_cons, !filter_nil.
    destruct (decide (Notification.timestamp x = timestamp)) as [Heq|Hneq].
    + run (move_if_match_hit _ _ _ _ _ _ Hne Hp Heq).
      rewrite (IH suf); [| by apply rebind_not_pending | apply bound_hold_pending, bound_write |
                   cbn [held hold]; by destruct (write shown _ self)].
      rewrite items_of_hold_pending by (by apply rebind_not_pending).
      rewrite items_of_write, rebind_rebind, write_hold_pending by done.
      rewrite (decide_True (P := matching x)) by done.
      rewrite (decide_False (P := other x)) by (unfold other; tauto).
      rewrite reverse_app, reverse_singleton, length_app, app_nil_r. cbn [length].
      rewrite <- !(assoc_L (++)). do 3 f_equal. lia.
    + run (move_if_match_miss _ _ _ _ _ _ Hp Hneq).
      rewrite (IH (x :: suf)) by done.
      rewrite (decide_False (P := matching x)) by done.
      rewrite (decide_True (P := other x)) by done.
      rewrite !app_nil_r, <- !(assoc_L (++)). done.
Qed.

End delete_facts.

Section delete_duplicates.

Import GRRUser.

(** The variable [shown_notifications] once [DeletePendingNotification] has
    bound it: the held list when it has entries, a new list otherwise. *)
Lemma shown_variable (self : t) :
  exists shown,
    (forall A (k : ref -> M A),
       (shown_notifications ← Get SHOWN_NOTIFICATIONS;
        shown_notifications ←
          match shown_notifications with
          | None => mret (Schema_new SHOWN_NOTIFICATIONS)
          | Some r =>
              l ← items r;
              if negb (bool_decide (l ≠ [])) then mret (Schema_new SHOWN_NOTIFICATIONS)
              else mret r
          end;
        k shown_notifications) self = k shown self) /\
    shown ≠ Held PENDING_NOTIFICATIONS /\
    bound shown self /\
    shown = match shown_notifications self with
            | Some (_ :: _) => Held SHOWN_NOTIFICATIONS
            | _ => Own SHOWN_NOTIFICATIONS []
            end.
Proof.
  destruct (shown_notifications self) as [[|x l]|] eqn:Hshown.
  - exists (Own SHOWN_NOTIFICATIONS []). split; [| done].
    intros A k. rewrite bind_eq. unfold Get at 1. cbn [held]. rewrite Hshown.
    rewrite bind_eq, bind_eq, items_eq. cbn [items_of held]. by rewrite Hshown.
  - exists (Held SHOWN_NOTIFICATIONS). split; [| repeat split; [done | simpl; eauto]].
    intros A k. rewrite bind_eq. unfold Get at 1. cbn [held]. rewrite Hshown.
    rewrite bind_eq, bind_eq, items_eq. cbn [items_of held]. by rewrite Hshown.
  - exists (Own SHOWN_NOTIFICATIONS []). split; [| done].
    intros A k. rewrite bind_eq. unfold Get at 1. cbn [held]. by rewrite Hshown.
Qed.

End delete_duplicates.

(** C3, where it fails: with two pending notifications of timestamp 7 and no
    shown list, [DeletePendingNotification(7)] raises [UniqueKeyError] and
    the two entries are in no list of the user: gone from the pending list,
    they were put on a list the call made for itself and never [Set]; no
    write is buffered. *)
Lemma DeletePendingNotification_duplicates_counterexample :
  exists self',
    GRRUser.DeletePendingNotification 7 duplicate_user = (Raised UniqueKeyError, self') /\
    GRRUser.pending_notifications self' =
      Some [Notification.Make "ViewObject" "aff4:/C.2" "b" "Flow" 8] /\
    GRRUser.shown_notifications self' = None /\
    GRRUser.buffered self' = [] /\
    GRRUser.flushed self' GRRUser.SHOWN_NOTIFICATIONS = None.
Proof. eexists. repeat split. Qed.

(** C3, amended. When more than one pending notification has the timestamp,
    [DeletePendingNotification] takes every one of them out of the pending
    list the user holds and appends them, last first, to the shown list it
    works on, then raises [UniqueKeyError] before any [Set]: no write is
    buffered and the data store is as it was. The shown list it works on is
    the one the user holds only when that one has entries; otherwise it is a
    list of the call's own, and the user's shown list stays absent or empty. *)
Theorem DeletePendingNotification_duplicates (timestamp : Z)
    (pending : NotificationList) (self : GRRUser.t) :
  GRRUser.pending_notifications self = Some pending ->
  (1 < length (filter (fun n => Notification.timestamp n = timestamp) pending))%nat ->
  let matches := filter (fun n => Notification.timestamp n = timestamp) pending in
  let rest := filter (fun n => Notification.timestamp n ≠ timestamp) pending in
  let shown' := match GRRUser.shown_notifications self with
                | Some (x :: l) => Some ((x :: l) ++ reverse matches)
                | Some [] => Some []
                | None => None
                end in
  GRRUser.DeletePendingNotification timestamp self =
  (Raised UniqueKeyError,
   GRRUser.Make (Some rest) shown' (GRRUser.shown_global_notifications self)
                (GRRUser.password self) (GRRUser.buffered self) (GRRUser.flushed self)).
Proof.
  intros Hp Hdup matches rest shown'.
  destruct (shown_variable self) as (shown & Hbind & Hne & Hb & Hshown).
  unfold GRRUser.DeletePendingNotification. rewrite Hbind.
  rewrite bind_eq. unfold GRRUser.Get at 1. cbn [GRRUser.held]. rewrite Hp.
  rewrite bind_eq, items_eq. cbn [GRRUser.items_of GRRUser.held]. rewrite Hp. cbn [default from_option id].
  assert (Hne' : pending ≠ []) by (intros ->; simpl in Hdup; lia).
  rewrite (bool_decide_eq_true_2 _ Hne'). cbn [negb].
  erewrite bind_returned; last first.
  { apply (move_loop timestamp pending [] shown 0 self Hne Hb). by rewrite app_nil_r. }
  cbn [plus]. fold matches rest.
  rewrite (proj2 (Nat.ltb_lt 1 (length matches)) Hdup). unfold GRRUser.raise. f_equal.
  rewrite app_nil_r. subst shown shown'.
  destruct self as [p [[|x l]|] g w b f]; simpl in *; by subst.
Qed.

Lemma DeletePendingNotification_duplicates_witness :
  GRRUser.DeletePendingNotification 7 duplicate_user =
  (Raised UniqueKeyError,
   GRRUser.Make (Some [Notification.Make "ViewObject" "aff4:/C.2" "b" "Flow" 8])
                None None None [] (GRRUser.flushed duplicate_user)).
Proof.
  apply (DeletePendingNotification_duplicates 7
           [Notification.Make "ViewObject" "aff4:/C.1" "a" "Flow" 7;
            Notification.Make "ViewObject" "aff4:/C.2" "b" "Flow" 8;
            Notification.Make "ViewObject" "aff4:/C.3" "c" "Flow" 7]
           duplicate_user).
  - reflexivity.
  - vm_compute. lia.
Defined.

Section show_facts.

Import GRRUser.

Lemma append_each (a : Attribute) (l0 l : NotificationList) (self : t) :
  for_each l (fun notification r => Append r notification) (Own a l0) self =
  (Returned (Own a (l0 ++ l)), self).
Proof.
  revert l0. induction l as [|n l IH]; intros l0; cbn [for_each].
  - by rewrite app_nil_r.
  - run (Append_eq _ _ _). cbn [rebind write items_of].
    rewrite IH. by rewrite <- (assoc_L (++)).
Qed.

Lemma ShowNotifications_keep (self : t) :
  ShowNotifications false self =
  (Returned (default [] (pending_notifications self) ++
             default [] (shown_notifications self)), self).
Proof.
  unfold ShowNotifications, Schema_new, Get_or_empty.
  rewrite bind_eq. cbn [held]. run (append_each _ _ _ _).
  rewrite bind_eq. cbn [held]. run (append_each _ _ _ _).
  done.
Qed.

Lemma ShowNotifications_reset (self : t) :
  let merged := default [] (pending_notifications self) ++
                default [] (shown_notifications self) in
  ShowNotifications true self =
  (Returned merged,
   Make (Some []) (Some merged) (shown_global_notifications self) (password self) []
        (fun a => if bool_decide (a ∈ PENDING_NOTIFICATIONS :: SHOWN_NOTIFICATIONS
                                       :: buffered self)
                  then match a with
                       | PENDING_NOTIFICATIONS => Some []
                       | SHOWN_NOTIFICATIONS => Some merged
                       end
                  else flushed self a)).
Proof.
  unfold ShowNotifications, Schema_new, Get_or_empty.
  rewrite bind_eq. cbn [held]. run (append_each _ _ _ _).
  rewrite bind_eq. cbn [held]. run (append_each _ _ _ _).
  done.
Qed.

End show_facts.

(** C5. [ShowNotifications] returns the pending entries followed by the
    shown ones, each in its order. With [reset] the returned sequence becomes
    the shown list, the pending list becomes empty, and both writes are
    flushed to the data store before the call returns, nothing staying
    buffered; without [reset] the user object is left as it was. *)
Theorem ShowNotifications_spec (reset : bool) (self : GRRUser.t) :
  let pending := default [] (GRRUser.pending_notifications self) in
  let shown := default [] (GRRUser.shown_notifications self) in
  exists self',
    GRRUser.ShowNotifications reset self = (Returned (pending ++ shown), self') /\
    if reset then
      GRRUser.shown_notifications self' = Some (pending ++ shown) /\
      GRRUser.pending_notifications self' = Some [] /\
      GRRUser.buffered self' = [] /\
      GRRUser.flushed self' GRRUser.SHOWN_NOTIFICATIONS = Some (pending ++ shown) /\
      GRRUser.flushed self' GRRUser.PENDING_NOTIFICATIONS = Some [] /\
      GRRUser.shown_global_notifications self' = GRRUser.shown_global_notifications self /\
      GRRUser.password self' = GRRUser.password self
    else self' = self.
Proof.
  intros pending shown. destruct reset.
  - eexists. split; [apply ShowNotifications_reset |]. cbn. repeat split.
  - eexists. split; [apply ShowNotifications_keep | done].
Qed.

(** ** Global notifications *)

Section sorted_facts.

Context {A : Type} (key : A -> N).

Let R (a b : A) : Prop := key a <= key b.

Lemma insert_by_key_perm (x : A) (l : list A) : insert_by_key key x l ≡ₚ x :: l.
Proof.
  induction l as [|y l IH]; simpl; [done |].
  destruct (key x <=? key y); [done |]. by rewrite IH, Permutation_swap.
Qed.

Lemma sorted_perm (l : list A) : sorted key l ≡ₚ l.
Proof.
  induction l as [|x l IH]; simpl; [done |]. by rewrite insert_by_key_perm, IH.
Qed.

Lemma insert_by_key_sorted (x : A) (l : list A) :
  StronglySorted R l -> StronglySorted R (insert_by_key key x l).
Proof.
  induction 1 as [|y l Hl IH Hy]; simpl.
  - by repeat constructor.
  - destruct (N.leb_spec (key x) (key y)) as [Hxy|Hyx].
    + constructor; [by constructor |]. constructor; [done |].
      eapply Forall_impl; [exact Hy |]. unfold R. intros z Hz. simpl in Hz. lia.
    + constructor; [done |]. rewrite insert_by_key_perm. constructor; [| done].
      unfold R. lia.
Qed.

Lemma sorted_sorted (l : list A) : StronglySorted R (sorted key l).
Proof.
  induction l as [|x l IH]; simpl; [constructor | by apply insert_by_key_sorted].
Qed.

End sorted_facts.

Lemma StronglySorted_filter {A : Type} (R : A -> A -> Prop) (P : A -> Prop)
    `{forall x, Decision (P x)} (l : list A) :
  StronglySorted R l -> StronglySorted R (filter P l).
Proof.
  induction 1 as [|x l Hl IH Hx]; [constructor |].
  rewrite filter_cons. case_decide; [| done]. constructor; [done |].
  apply Forall_forall. intros y [_ Hy]%list_elem_of_filter.
  by eapply Forall_forall in Hx.
Qed.

Section set_facts.

Import GlobalNotificationSet.

Lemma AddNotification_by_priority (self : t) (new : GlobalNotification.t) :
  by_priority (AddNotification self new).
Proof. apply sorted_sorted. Qed.

Lemma AddNotification_elem_of (self : t) (new n : GlobalNotification.t) :
  n ∈ iter (AddNotification self new) <->
  n = new \/ (n ∈ iter self /\ GlobalNotification.type n ≠ GlobalNotification.type new).
Proof.
  unfold iter, AddNotification. cbn [notifications].
  rewrite sorted_perm, elem_of_app, list_elem_of_filter, list_elem_of_singleton. tauto.
Qed.

Lemma AddNotification_one_per_type (self : t) (new : GlobalNotification.t) :
  one_per_type self -> one_per_type (AddNotification self new).
Proof.
  unfold one_per_type, AddNotification. cbn [notifications]. intros Hnodup.
  rewrite sorted_perm, fmap_app. apply NoDup_app. split; [| split].
  - eapply sublist_NoDup; [exact Hnodup |]. apply fmap_sublist, sublist_filter.
  - intros ty (n & -> & Hn)%list_elem_of_fmap Hnew.
    apply list_elem_of_filter in Hn as [Hty _].
    apply list_elem_of_singleton in Hnew. done.
  - apply NoDup_singleton.
Qed.

Lemma AddNotifications_one_per_type (self : t) (news : list GlobalNotification.t) :
  one_per_type self -> one_per_type (AddNotifications self news).
Proof.
  revert self. induction news as [|new news IH]; intros self Hone; [done |].
  by apply IH, AddNotification_one_per_type.
Qed.

End set_facts.

(** C8. From a set that holds at most one notification per type, and along
    any sequence of calls of [AddNotification], after every call the set
    holds at most one notification per type and lists its notifications in
    ascending order of type; the call leaves in the set the notification it
    was given and those of the other types, so that a notification of the
    same type that was there is replaced by the new one. *)
Theorem AddNotification_invariant (self : GlobalNotificationSet.t)
    (news : list GlobalNotification.t) (new : GlobalNotification.t) :
  GlobalNotificationSet.one_per_type self ->
  let before := GlobalNotificationSet.AddNotifications self news in
  let after := GlobalNotificationSet.AddNotification before new in
  GlobalNotificationSet.one_per_type after /\
  GlobalNotificationSet.by_priority after /\
  new ∈ GlobalNotificationSet.iter after /\
  (forall n, n ∈ GlobalNotificationSet.iter after ->
             GlobalNotification.type n = GlobalNotification.type new -> n = new) /\
  (forall n, GlobalNotification.type n ≠ GlobalNotification.type new ->
             (n ∈ GlobalNotificationSet.iter after <-> n ∈ GlobalNotificationSet.iter before)).
Proof.
  intros Hone before after.
  pose proof (AddNotifications_one_per_type self news Hone) as Hone'.
  fold before in Hone'. subst after.
  split; [by apply AddNotification_one_per_type |].
  split; [apply AddNotification_by_priority |].
  split; [apply AddNotification_elem_of; by left |].
  split.
  - intros n [-> | [_ Hn]]%AddNotification_elem_of Hty; done.
  - intros n Hty. rewrite AddNotification_elem_of. split; [| tauto].
    intros [-> | [Hn _]]; done.
Qed.

Lemma AddNotification_invariant_witness :
  let old := GlobalNotification.Make GlobalNotification.INFO "maintenance at 5" None 10%Z 20%Z in
  let warn := GlobalNotification.Make GlobalNotification.WARNING "disk full" None 10%Z 20%Z in
  let new := GlobalNotification.Make GlobalNotification.INFO "maintenance at 6" None 10%Z 20%Z in
  let before := GlobalNotificationSet.AddNotifications GlobalNotificationSet.empty [warn; old] in
  let after := GlobalNotificationSet.AddNotification before new in
  GlobalNotificationSet.one_per_type after /\
  GlobalNotificationSet.by_priority after /\
  new ∈ GlobalNotificationSet.iter after /\
  (forall n, n ∈ GlobalNotificationSet.iter after ->
             GlobalNotification.type n = GlobalNotification.type new -> n = new) /\
  (forall n, GlobalNotification.type n ≠ GlobalNotification.type new ->
             (n ∈ GlobalNotificationSet.iter after <-> n ∈ GlobalNotificationSet.iter before)).
Proof.
  intros old warn new.
  apply (AddNotification_invariant GlobalNotificationSet.empty [warn; old] new).
  apply NoDup_nil_2.
Defined.

Example AddNotification_replaces :
  let old := GlobalNotification.Make GlobalNotification.INFO "maintenance at 5" None 10%Z 20%Z in
  let warn := GlobalNotification.Make GlobalNotification.WARNING "disk full" None 10%Z 20%Z in
  let new := GlobalNotification.Make GlobalNotification.INFO "maintenance at 6" None 10%Z 20%Z in
  GlobalNotificationSet.iter
    (GlobalNotificationSet.AddNotifications GlobalNotificationSet.empty [warn; old; new])
  = [new; warn].
Proof. reflexivity. Qed.

Section pending_global_facts.

Import GRRUser.

Lemma pending_global_at (Now : nat -> RDFDatetime.t) (now : RDFDatetime.t)
    (seen : GlobalNotificationSet.t) (current : list GlobalNotification.t)
    (reads : nat) (result : list GlobalNotification.t) :
  (forall k, Now k = now) ->
  pending_global Now seen current reads result =
  result ++ filter (fun n => (n ∉ GlobalNotificationSet.notifications seen) /\ in_window now n)
                   current.
Proof.
  intros Hnow. revert reads result.
  induction current as [|n current IH]; intros reads result; cbn [pending_global].
  - by rewrite filter_nil, app_nil_r.
  - rewrite filter_cons. unfold GlobalNotificationSet.contains. rewrite Hnow.
    destruct (decide (n ∈ GlobalNotificationSet.notifications seen)) as [Hseen|Hnew].
    + rewrite (bool_decide_eq_true_2 _ Hseen), IH.
      rewrite decide_False by tauto. done.
    + rewrite (bool_decide_eq_false_2 _ Hnew).
      destruct (decide (in_window now n)) as [Hin|Hout].
      * rewrite decide_True by done. destruct Hin as [Hfrom Hto].
        rewrite (proj2 (Z.geb_le _ _) Hto), (proj2 (Z.geb_le _ _) Hfrom). cbn [andb].
        by rewrite IH, <- (assoc_L (++)).
      * rewrite decide_False by tauto.
        destruct (_ && _) eqn:Htest; [| apply IH].
        apply andb_true_iff in Htest as [Hto%Z.geb_le Hfrom%Z.geb_le].
        destruct Hout. by split.
Qed.

End pending_global_facts.

(** C7. When the clock reads [now] all through the call,
    [GetPendingGlobalNotifications] returns the notifications of the
    registry that are equal to no notification of the user's shown set and
    whose window contains [now], in the order in which the registry lists
    them, which is the order of their types when the registry is in that
    order; the user object is unchanged. *)
Theorem GetPendingGlobalNotifications_spec (storage : GlobalNotificationStorage.t)
    (Now : nat -> RDFDatetime.t) (now : RDFDatetime.t) (self : GRRUser.t) :
  (forall k, Now k = now) ->
  let registry := GlobalNotificationStorage.GetNotifications storage in
  let seen := default GlobalNotificationSet.empty (GRRUser.shown_global_notifications self) in
  let result :=
    filter (fun n => (n ∉ GlobalNotificationSet.iter seen) /\
                     (GlobalNotification.show_from n <= now <=
                      datetime_add (GlobalNotification.show_from n)
                                   (GlobalNotification.duration n))%Z)
           (GlobalNotificationSet.iter registry) in
  GRRUser.GetPendingGlobalNotifications storage Now self = (Returned result, self) /\
  result `sublist_of` GlobalNotificationSet.iter registry /\
  (GlobalNotificationSet.by_priority registry ->
   StronglySorted (fun a b => GlobalNotificationSet.type_key a <= GlobalNotificationSet.type_key b)
                  result).
Proof.
  intros Hnow registry seen result. split; [| split].
  - unfold GRRUser.GetPendingGlobalNotifications.
    by rewrite (pending_global_at Now now) by done.
  - apply sublist_filter.
  - intros Hsorted. by apply StronglySorted_filter.
Qed.

Lemma GetPendingGlobalNotifications_spec_witness :
  let Now := fun _ : nat => 100%Z in
  let registry := GlobalNotificationStorage.GetNotifications sample_storage in
  let seen := default GlobalNotificationSet.empty (GRRUser.shown_global_notifications new_user) in
  let result :=
    filter (fun n => (n ∉ GlobalNotificationSet.iter seen) /\
                     (GlobalNotification.show_from n <= 100 <=
                      datetime_add (GlobalNotification.show_from n)
                                   (GlobalNotification.duration n))%Z)
           (GlobalNotificationSet.iter registry) in
  GRRUser.GetPendingGlobalNotifications sample_storage Now new_user = (Returned result, new_user) /\
  result `sublist_of` GlobalNotificationSet.iter registry /\
  (GlobalNotificationSet.by_priority registry ->
   StronglySorted (fun a b => GlobalNotificationSet.type_key a <= GlobalNotificationSet.type_key b)
                  result).
Proof.
  intros Now.
  apply (GetPendingGlobalNotifications_spec sample_storage Now 100%Z new_user).
  reflexivity.
Defined.

Example pending_global_sample :
  GRRUser.GetPendingGlobalNotifications sample_storage (fun _ => 100%Z) new_user =
  (Returned [GlobalNotification.Make GlobalNotification.WARNING "disk full" None 50%Z 1%Z],
   new_user).
Proof. reflexivity. Qed.

(** C10. A [GlobalNotification] made without a duration has a duration of
    two weeks, and one made without [show_from] is to be shown from the time
    of its making. Made without either and added to the registry, it is
    pending for a user who has seen nothing at every time from its making to
    two weeks later, these included, and at no other time. *)
Theorem GlobalNotification_init_defaults (now : RDFDatetime.t)
    (type : GlobalNotification.Type_) (message : string) (link : option string)
    (show_from : option RDFDatetime.t) (duration : option Duration.t) :
  GlobalNotification.duration
    (GlobalNotification.__init__ now type message link show_from None)
  = Duration.two_weeks /\
  Duration.two_weeks = (14 * 24 * 3600)%Z /\
  GlobalNotification.show_from
    (GlobalNotification.__init__ now type message link None duration)
  = now /\
  let n := GlobalNotification.__init__ now type message link None None in
  let storage :=
    GlobalNotificationStorage.AddNotification (GlobalNotificationStorage.Make None) n in
  forall t : RDFDatetime.t,
    GRRUser.GetPendingGlobalNotifications storage (fun _ => t) new_user =
    (Returned (if decide (now <= t <= now + 14 * 24 * 3600 * 1000000)%Z then [n] else []),
     new_user).
Proof.
  split; [| split; [| split]].
  - unfold GlobalNotification.__init__. cbn.
    by destruct (default 0%Z show_from =? 0)%Z.
  - reflexivity.
  - unfold GlobalNotification.__init__. cbn.
    destruct (default 0%Z duration =? 0)%Z; cbn; by destruct (Z.eqb_spec now 0).
  - assert (Hn : GlobalNotification.__init__ now type message link None None
                 = GlobalNotification.Make type message link now Duration.two_weeks).
    { unfold GlobalNotification.__init__. cbn. by destruct (Z.eqb_spec now 0). }
    intros n storage t. subst n storage. rewrite Hn.
    unfold GRRUser.GetPendingGlobalNotifications.
    rewrite (pending_global_at _ t) by done. cbn.
    unfold in_window, datetime_add, Duration.two_weeks. cbn.
    repeat case_decide; try done.
    + exfalso. match goal with H : _ /\ _ |- _ => destruct H as [_ H]; cbn in H end. lia.
    + exfalso.
      match goal with H : ¬ (_ /\ _) |- _ => apply H end.
      split; [apply not_elem_of_nil | lia].
Qed.

(** * Further properties *)

(** ** Credentials *)

Section credential_facts.

Import CryptedPassword.


Lemma string_app_inj (p a b : string) : p +:+ a = p +:+ b -> a = b.
Proof. induction p as [|c p IH]; simpl; [done |]. intros [= H]. by apply IH. Qed.

Lemma len_app (a b : string) : Str.len (a +:+ b) = (Str.len a + Str.len b)%nat.
Proof. unfold Str.len. induction a as [|c a IH]; simpl; [done | by rewrite IH]. Qed.

Lemma len_hex_fixed (w : nat) (x : N) : Str.len (Str.hex_fixed w x) = w.
Proof.
  revert x. induction w as [|w IH]; intros x; simpl; [done |].
  rewrite len_app, IH. simpl. lia.
Qed.

Lemma split_no_sep (sep : ascii) (s : string) :
  Str.contains sep s = false -> Str.split sep s = [s].
Proof.
  induction s as [|c s IH]; simpl; [done |].
  intros [Hc Hs]%orb_false_iff. by rewrite Hc, (IH Hs).
Qed.

Lemma compress_length (h block : list N) : length (SHA256.compress h block) = 8%nat.
Proof. reflexivity. Qed.

Lemma digest_words_length (msg : list N) : length (SHA256.digest_words msg) = 8%nat.
Proof.
  unfold SHA256.digest_words.
  generalize (SHA256.blocks (length (SHA256.words (length (SHA256.pad msg)) (SHA256.pad msg)))
                            (SHA256.words (length (SHA256.pad msg)) (SHA256.pad msg))).
  intros bs. assert (H : length SHA256.H0 = 8%nat) by reflexivity.
  revert H. generalize SHA256.H0. induction bs as [|b bs IH]; intros h Hh; simpl; [done |].
  apply IH, compress_length.
Qed.

Lemma hexdigest_len (data : string) : Str.len (SHA256.hexdigest data) = 64%nat.
Proof.
  unfold SHA256.hexdigest.
  pose proof (digest_words_length (map Str.ord (Str.chars data))) as H.
  revert H. generalize (SHA256.digest_words (map Str.ord (Str.chars data))). intros ws.
  assert (Hlen : Str.len (foldr (fun w acc => Str.hex_fixed 8 w +:+ acc) EmptyString ws)
                 = (8 * length ws)%nat).
  { induction ws as [|w ws IH]; [done |]. cbn [foldr length].
    rewrite len_app, len_hex_fixed, IH. lia. }
  intros H. by rewrite Hlen, H.
Qed.

Lemma hexdigest_no_dollar (data : string) :
  Str.contains "$" (SHA256.hexdigest data) = false.
Proof.
  unfold SHA256.hexdigest.
  generalize (SHA256.digest_words (map Str.ord (Str.chars data))). intros ws.
  induction ws as [|w ws IH]; [done |]. cbn [foldr].
  by rewrite contains_app, hex_fixed_no_dollar, IH.
Qed.


End credential_facts.


(** X2. Against a credential made by [SetPassword] with a salt free of [$]
    (or with the salt it draws), [CheckPassword] accepts a candidate exactly
    when the digest of the candidate between the salts is the stored digest:
    a password other than the one set is accepted only on a collision of
    SHA-256. *)
Theorem CheckPassword_digest (crypt : option (string -> string -> string))
    (ulong : N) (self : CryptedPassword.t) (password candidate : string)
    (salt : option string) :
  (forall s, salt = Some s -> Str.contains "$" s = false) ->
  let used := default (Str.format_08x ulong) salt in
  CryptedPassword.CheckPassword crypt
    (CryptedPassword.SetPassword ulong self password salt) candidate
  = Returned (bool_decide (SHA256.hexdigest (used +:+ candidate +:+ used) =
                           SHA256.hexdigest (used +:+ password +:+ used))).
Proof.
  intros Hsalt used.
  assert (Hused : Str.contains "$" used = false).
  { subst used. destruct salt as [s|]; [by apply Hsalt | apply hex_fixed_no_dollar]. }
  assert (Hset : CryptedPassword.SetPassword ulong self password salt
                 = CryptedPassword.Make (CryptedPassword._CalculateHash password used)).
  { unfold CryptedPassword.SetPassword. subst used. by destruct salt. }
  rewrite Hset. unfold CryptedPassword.CheckPassword. cbn [CryptedPassword._value].
  change (CryptedPassword._CalculateHash password used)
    with (CryptedPassword._MakeTemplate
            (SHA256.hexdigest (used +:+ password +:+ used)) used).
  rewrite template_startswith, template_split by done. cbn [negb]. f_equal.
  apply eq_true_iff_eq. rewrite safe_str_cmp_true, bool_decide_eq_true.
  unfold CryptedPassword._CalculateHash, CryptedPassword._MakeTemplate. split.
  - intros H. symmetry. by do 4 apply string_app_inj in H.
  - by intros ->.
Qed.

Lemma CheckPassword_digest_witness :
  CryptedPassword.CheckPassword None
    (CryptedPassword.SetPassword 0 (CryptedPassword.Make "") "pw" (Some "ab")) "pw2"
  = Returned (bool_decide (SHA256.hexdigest ("ab" +:+ "pw2" +:+ "ab") =
                           SHA256.hexdigest ("ab" +:+ "pw" +:+ "ab"))).
Proof.
  apply (CheckPassword_digest None 0 (CryptedPassword.Make "") "pw" "pw2" (Some "ab")).
  intros s [= <-]. reflexivity.
Defined.

(** X3. The credential [SetPassword] makes with a salt free of [$] (or with
    the salt it draws) splits at [$] into exactly three pieces: the name of
    the algorithm, the salt, and a digest of 64 characters. *)
Theorem SetPassword_split (ulong : N) (self : CryptedPassword.t)
    (password : string) (salt : option string) :
  (forall s, salt = Some s -> Str.contains "$" s = false) ->
  let used := default (Str.format_08x ulong) salt in
  exists digest,
    Str.split "$" (CryptedPassword._value
                     (CryptedPassword.SetPassword ulong self password salt))
    = ["sha256"; used; digest] /\
    Str.len digest = 64%nat.
Proof.
  intros Hsalt used.
  assert (Hused : Str.contains "$" used = false).
  { subst used. destruct salt as [s|]; [by apply Hsalt | apply hex_fixed_no_dollar]. }
  exists (SHA256.hexdigest (used +:+ password +:+ used)). split; [| apply hexdigest_len].
  replace (CryptedPassword._value (CryptedPassword.SetPassword ulong self password salt))
    with ("sha256" +:+ String "$" (used +:+ String "$"
            (SHA256.hexdigest (used +:+ password +:+ used))))
    by (subst used; by destruct salt).
  rewrite (split_app_sep "$" "sha256") by reflexivity.
  rewrite (split_app_sep "$" used) by done.
  by rewrite (split_no_sep "$") by apply hexdigest_no_dollar.
Qed.

Lemma SetPassword_split_witness :
  exists digest,
    Str.split "$" (CryptedPassword._value
                     (CryptedPassword.SetPassword 42 (CryptedPassword.Make "") "hunter2" None))
    = ["sha256"; default (Str.format_08x 42) None; digest] /\
    Str.len digest = 64%nat.
Proof.
  apply (SetPassword_split 42 (CryptedPassword.Make "") "hunter2" None).
  intros s H. discriminate H.
Defined.


(** ** The inbox: deleting, showing and notifying together *)

Section inbox_extra_facts.

Import GRRUser.

Lemma reverse_short {A} (l : list A) : (length l <= 1)%nat -> reverse l = l.
Proof. destruct l as [|x [|y l]]; simpl; [done | done | lia]. Qed.

Lemma filter_all {A} (P : A -> Prop) `{forall x, Decision (P x)} (l : list A) :
  Forall P l -> filter P l = l.
Proof.
  induction 1 as [|x l Hx Hl IH]; [done |]. by rewrite filter_cons_True, IH.
Qed.

Lemma filter_none {A} (P : A -> Prop) `{forall x, Decision (P x)} (l : list A) :
  Forall (fun x => ~ P x) l -> filter P l = [].
Proof.
  induction 1 as [|x l Hx Hl IH]; [done |]. by rewrite filter_cons_False.
Qed.

(** [DeletePendingNotification] when at most one pending entry has the
    timestamp. *)
Lemma delete_at_most_one (timestamp : Z) (pending : NotificationList) (self : t) :
  pending_notifications self = Some pending ->
  pending ≠ [] ->
  (length (filter (fun n => Notification.timestamp n = timestamp) pending) <= 1)%nat ->
  DeletePendingNotification timestamp self =
  (Returned (),
   Make (Some (filter (fun n => Notification.timestamp n ≠ timestamp) pending))
        (Some (default [] (shown_notifications self) ++
               filter (fun n => Notification.timestamp n = timestamp) pending))
        (shown_global_notifications self) (password self)
        (SHOWN_NOTIFICATIONS :: PENDING_NOTIFICATIONS :: buffered self)
        (flushed self)).
Proof.
  intros Hp Hne' Hone.
  destruct (shown_variable self) as (shown & Hbind & Hne & Hb & Hshown).
  unfold DeletePendingNotification. rewrite Hbind.
  rewrite bind_eq. unfold Get at 1. cbn [held]. rewrite Hp.
  rewrite bind_eq. unfold items at 1. cbn [items_of held]. rewrite Hp.
  cbn [default from_option id].
  rewrite (bool_decide_eq_true_2 _ Hne'). cbn [negb].
  erewrite bind_returned; last first.
  { apply (move_loop timestamp pending [] shown 0 self Hne Hb). by rewrite app_nil_r. }
  cbn [plus]. rewrite (proj2 (Nat.ltb_ge _ _)) by lia.
  rewrite (reverse_short _ Hone), app_nil_r.
  rewrite bind_eq. unfold Set_. subst shown.
  destruct self as [p [[|x l]|] g w b f]; simpl in *; by subst.
Qed.

End inbox_extra_facts.

(** X5. When exactly one or no pending notification has the timestamp and
    the pending list is not empty, [DeletePendingNotification] returns: the
    pending list keeps the other entries in their order, the one that has
    the timestamp goes to the end of the shown list (which is created, if
    need be empty, when the user had none), both lists are written with
    [Set], even when nothing moved, and nothing is flushed. *)
Theorem DeletePendingNotification_unique (timestamp : Z)
    (pending : NotificationList) (self : GRRUser.t) :
  GRRUser.pending_notifications self = Some pending ->
  pending ≠ [] ->
  (length (filter (fun n => Notification.timestamp n = timestamp) pending) <= 1)%nat ->
  exists self',
    GRRUser.DeletePendingNotification timestamp self = (Returned (), self') /\
    GRRUser.pending_notifications self' =
      Some (filter (fun n => Notification.timestamp n ≠ timestamp) pending) /\
    GRRUser.shown_notifications self' =
      Some (default [] (GRRUser.shown_notifications self) ++
            filter (fun n => Notification.timestamp n = timestamp) pending) /\
    GRRUser.buffered self' =
      GRRUser.SHOWN_NOTIFICATIONS :: GRRUser.PENDING_NOTIFICATIONS :: GRRUser.buffered self /\
    GRRUser.flushed self' = GRRUser.flushed self.
Proof.
  intros Hp Hne Hone. eexists. split; [by apply delete_at_most_one |]. done.
Qed.

Lemma DeletePendingNotification_unique_witness :
  exists self',
    GRRUser.DeletePendingNotification 8 duplicate_user = (Returned (), self') /\
    GRRUser.pending_notifications self' =
      Some (filter (fun n => Notification.timestamp n ≠ 8%Z)
                   [Notification.Make "ViewObject" "aff4:/C.1" "a" "Flow" 7;
                    Notification.Make "ViewObject" "aff4:/C.2" "b" "Flow" 8;
                    Notification.Make "ViewObject" "aff4:/C.3" "c" "Flow" 7]) /\
    GRRUser.shown_notifications self' =
      Some (default [] (GRRUser.shown_notifications duplicate_user) ++
            filter (fun n => Notification.timestamp n = 8%Z)
                   [Notification.Make "ViewObject" "aff4:/C.1" "a" "Flow" 7;
                    Notification.Make "ViewObject" "aff4:/C.2" "b" "Flow" 8;
                    Notification.Make "ViewObject" "aff4:/C.3" "c" "Flow" 7]) /\
    GRRUser.buffered self' =
      GRRUser.SHOWN_NOTIFICATIONS :: GRRUser.PENDING_NOTIFICATIONS
        :: GRRUser.buffered duplicate_user /\
    GRRUser.flushed self' = GRRUser.flushed duplicate_user.
Proof.
  apply (DeletePendingNotification_unique 8
           [Notification.Make "ViewObject" "aff4:/C.1" "a" "Flow" 7;
            Notification.Make "ViewObject" "aff4:/C.2" "b" "Flow" 8;
            Notification.Make "ViewObject" "aff4:/C.3" "c" "Flow" 7]
           duplicate_user).
  - reflexivity.
  - discriminate.
  - vm_compute. lia.
Defined.

(** X6. When the user has no pending list, or an empty one,
    [DeletePendingNotification] returns at once: no list is created or
    written, and the user object is exactly what it was. *)
Theorem DeletePendingNotification_nothing_pending (timestamp : Z) (self : GRRUser.t) :
  default [] (GRRUser.pending_notifications self) = [] ->
  GRRUser.DeletePendingNotification timestamp self = (Returned (), self).
Proof.
  intros Hempty.
  destruct (shown_variable self) as (shown & Hbind & _).
  unfold GRRUser.DeletePendingNotification. rewrite Hbind.
  rewrite bind_eq. unfold GRRUser.Get at 1. cbn [GRRUser.held].
  destruct (GRRUser.pending_notifications self) as [l|] eqn:Hp; [| done].
  simpl in Hempty. subst l.
  rewrite bind_eq. unfold GRRUser.items at 1. cbn [GRRUser.items_of GRRUser.held].
  by rewrite Hp.
Qed.

Lemma DeletePendingNotification_nothing_pending_witness :
  GRRUser.DeletePendingNotification 7 new_user = (Returned (), new_user).
Proof.
  apply (DeletePendingNotification_nothing_pending 7 new_user). reflexivity.
Defined.

(** X7. A notification just sent can be deleted by its timestamp: after a
    [Notify] with a recognised type at a time that no pending entry has for
    timestamp, [DeletePendingNotification] of that time returns, the new entry
    is the last of the shown list, and the pending list is the one from
    before the [Notify], less what the [Notify] expired from its front. *)
Theorem Notify_DeletePendingNotification (notification_types : list string) (now : Z)
    (message_type subject msg source : string) (self : GRRUser.t) :
  message_type ∈ notification_types ->
  Forall (fun n => Notification.timestamp n ≠ now)
         (default [] (GRRUser.pending_notifications self)) ->
  let old := default [] (GRRUser.pending_notifications self) in
  let new := Notification.Make message_type subject msg source now in
  exists self1 self2,
    GRRUser.Notify notification_types now message_type subject msg source self
      = (Returned (), self1) /\
    GRRUser.DeletePendingNotification now self1 = (Returned (), self2) /\
    GRRUser.pending_notifications self2 = Some (drop (length old + 1 - 50) old) /\
    GRRUser.shown_notifications self2 =
      Some (default [] (GRRUser.shown_notifications self) ++ [new]).
Proof.
  intros Hty Hfresh old new.
  eexists _, _. split; [by apply Notify_valid_type |].
  fold old new. rewrite length_app. cbn [length].
  rewrite drop_app_le by lia.
  set (kept := drop (length old + 1 - 50) old).
  assert (Hkept : Forall (fun n => Notification.timestamp n ≠ now) kept)
    by apply Forall_drop, Hfresh.
  assert (Hhit : filter (fun n => Notification.timestamp n = now) (kept ++ [new]) = [new]).
  { rewrite filter_app, filter_none by (eapply Forall_impl; [exact Hkept | by intros ? ? ?]).
    by rewrite filter_cons_True. }
  assert (Hmiss : filter (fun n => Notification.timestamp n ≠ now) (kept ++ [new]) = kept).
  { rewrite filter_app, filter_all by done.
    rewrite filter_cons_False by (intros H; by apply H). by rewrite app_nil_r. }
  split.
  - apply delete_at_most_one; [reflexivity | by destruct kept | ].
    rewrite Hhit. simpl. lia.
  - cbn [GRRUser.pending_notifications GRRUser.shown_notifications].
    fold kept. by rewrite Hhit, Hmiss.
Qed.

Lemma Notify_DeletePendingNotification_witness :
  let old := default [] (GRRUser.pending_notifications full_user) in
  let new := Notification.Make "ViewObject" "aff4:/C.1" "hello" "Flow" 100 in
  exists self1 self2,
    GRRUser.Notify ["ViewObject"; "HostInformation"; "GrantAccess"] 100
                   "ViewObject" "aff4:/C.1" "hello" "Flow" full_user
      = (Returned (), self1) /\
    GRRUser.DeletePendingNotification 100 self1 = (Returned (), self2) /\
    GRRUser.pending_notifications self2 = Some (drop (length old + 1 - 50) old) /\
    GRRUser.shown_notifications self2 =
      Some (default [] (GRRUser.shown_notifications full_user) ++ [new]).
Proof.
  apply (Notify_DeletePendingNotification
           ["ViewObject"; "HostInformation"; "GrantAccess"] 100
           "ViewObject" "aff4:/C.1" "hello" "Flow" full_user).
  - constructor.
  - apply Forall_forall. intros n Hn. apply list_elem_of_In in Hn.
    vm_compute in Hn. intros Heq.
    repeat (destruct Hn as [<- | Hn]; [discriminate Heq |]). destruct Hn.
Defined.

(** X8. Showing twice with [reset]: the second call returns the same
    sequence as the first, the pending list stays empty, the shown list is
    that sequence, nothing is left buffered, and the data store holds after
    the second call what it held after the first. *)
Theorem ShowNotifications_twice (self : GRRUser.t) :
  exists merged self1 self2,
    GRRUser.ShowNotifications true self = (Returned merged, self1) /\
    GRRUser.ShowNotifications true self1 = (Returned merged, self2) /\
    GRRUser.pending_notifications self2 = Some [] /\
    GRRUser.shown_notifications self2 = Some merged /\
    GRRUser.buffered self2 = [] /\
    (forall a, GRRUser.flushed self2 a = GRRUser.flushed self1 a).
Proof.
  eexists _, _, _. split; [apply ShowNotifications_reset |].
  split; [by rewrite ShowNotifications_reset |].
  cbn. repeat split. intros [|]; cbn.
  - by rewrite bool_decide_eq_true_2 by apply list_elem_of_here.
  - by rewrite bool_decide_eq_true_2 by apply list_elem_of_further, list_elem_of_here.
Qed.

(** X9. [Notify] buffers and does not flush: after a [Notify] with a
    recognised type the shown list, the shown global notifications, the
    password and the data store are as they were, and the write of the
    pending list waits in the buffer; a [Flush] then puts the new pending
    list in the data store and empties the buffer. *)
Theorem Notify_buffers (notification_types : list string) (now : Z)
    (message_type subject msg source : string) (self : GRRUser.t) :
  message_type ∈ notification_types ->
  exists self1 self2,
    GRRUser.Notify notification_types now message_type subject msg source self
      = (Returned (), self1) /\
    GRRUser.shown_notifications self1 = GRRUser.shown_notifications self /\
    GRRUser.shown_global_notifications self1 = GRRUser.shown_global_notifications self /\
    GRRUser.password self1 = GRRUser.password self /\
    GRRUser.flushed self1 = GRRUser.flushed self /\
    GRRUser.buffered self1 = GRRUser.PENDING_NOTIFICATIONS :: GRRUser.buffered self /\
    GRRUser.Flush self1 = (Returned (), self2) /\
    GRRUser.flushed self2 GRRUser.PENDING_NOTIFICATIONS = GRRUser.pending_notifications self1 /\
    GRRUser.pending_notifications self2 = GRRUser.pending_notifications self1 /\
    GRRUser.buffered self2 = [].
Proof.
  intros Hty. eexists _, _. split; [by apply Notify_valid_type |].
  cbn. repeat split.
Qed.

Lemma Notify_buffers_witness :
  exists self1 self2,
    GRRUser.Notify ["ViewObject"; "HostInformation"; "GrantAccess"] 100
                   "ViewObject" "aff4:/C.1" "hello" "Flow" new_user
      = (Returned (), self1) /\
    GRRUser.shown_notifications self1 = GRRUser.shown_notifications new_user /\
    GRRUser.shown_global_notifications self1 = GRRUser.shown_global_notifications new_user /\
    GRRUser.password self1 = GRRUser.password new_user /\
    GRRUser.flushed self1 = GRRUser.flushed new_user /\
    GRRUser.buffered self1 = GRRUser.PENDING_NOTIFICATIONS :: GRRUser.buffered new_user /\
    GRRUser.Flush self1 = (Returned (), self2) /\
    GRRUser.flushed self2 GRRUser.PENDING_NOTIFICATIONS = GRRUser.pending_notifications self1 /\
    GRRUser.pending_notifications self2 = GRRUser.pending_notifications self1 /\
    GRRUser.buffered self2 = [].
Proof.
  apply (Notify_buffers ["ViewObject"; "HostInformation"; "GrantAccess"] 100
                        "ViewObject" "aff4:/C.1" "hello" "Flow" new_user).
  constructor.
Defined.

(** ** Global notifications: the registry and what a user has seen *)

Section global_extra_facts.

Import GRRUser.

(** Whatever the clock reads, the loop adds to its result notifications of
    the registry, in the registry's order, that are not in the shown set and
    whose window contained one of the readings. *)
Lemma pending_global_any_clock (Now : nat -> RDFDatetime.t)
    (seen : GlobalNotificationSet.t) (current : list GlobalNotification.t)
    (reads : nat) (result : list GlobalNotification.t) :
  exists added,
    pending_global Now seen current reads result = result ++ added /\
    added `sublist_of` current /\
    Forall (fun n => (n ∉ GlobalNotificationSet.iter seen) /\ exists k, in_window (Now k) n)
           added.
Proof.
  revert reads result.
  induction current as [|n current IH]; intros reads result; cbn [pending_global].
  - exists []. by rewrite app_nil_r.
  - unfold GlobalNotificationSet.contains.
    destruct (decide (n ∈ GlobalNotificationSet.notifications seen)) as [Hseen|Hnew].
    + rewrite (bool_decide_eq_true_2 _ Hseen).
      destruct (IH reads result) as (added & -> & Hsub & Hall).
      exists added. split; [done |]. split; [by apply sublist_cons | done].
    + rewrite (bool_decide_eq_false_2 _ Hnew).
      destruct (_ && _) eqn:Htest.
      * apply andb_true_iff in Htest as [Hto%Z.geb_le Hfrom%Z.geb_le].
        destruct (IH (S reads) (result ++ [n])) as (added & -> & Hsub & Hall).
        exists (n :: added). rewrite <- (assoc_L (++)). split; [done |].
        split; [by apply sublist_skip |]. constructor; [| done].
        split; [done |]. exists reads. by split.
      * destruct (IH (S reads) result) as (added & -> & Hsub & Hall).
        exists added. split; [done |]. split; [by apply sublist_cons | done].
Qed.

Lemma storage_AddNotifications (storage : GlobalNotificationStorage.t)
    (news : list GlobalNotification.t) :
  news ≠ [] \/ is_Some (GlobalNotificationStorage.NOTIFICATIONS storage) ->
  GlobalNotificationStorage.NOTIFICATIONS
    (GlobalNotificationStorage.AddNotifications storage news)
  = Some (GlobalNotificationSet.AddNotifications
            (GlobalNotificationStorage.GetNotifications storage) news).
Proof.
  revert storage. induction news as [|new news IH]; intros storage Hinit.
  - destruct Hinit as [? | [s Hs]]; [done |]. cbn.
    unfold GlobalNotificationStorage.GetNotifications. by rewrite Hs.
  - cbn [GlobalNotificationStorage.AddNotifications foldl].
    change (foldl GlobalNotificationStorage.AddNotification ?s news)
      with (GlobalNotificationStorage.AddNotifications s news).
    rewrite IH by (right; by eexists). done.
Qed.

Lemma AddNotifications_by_priority (self : GlobalNotificationSet.t)
    (news : list GlobalNotification.t) :
  GlobalNotificationSet.by_priority self ->
  GlobalNotificationSet.by_priority (GlobalNotificationSet.AddNotifications self news).
Proof.
  revert self. induction news as [|new news IH]; intros self Hsorted; [done |].
  apply IH, AddNotification_by_priority.
Qed.

Lemma one_per_type_length (self : GlobalNotificationSet.t) :
  GlobalNotificationSet.one_per_type self ->
  (length (GlobalNotificationSet.iter self) <= 3)%nat.
Proof.
  unfold GlobalNotificationSet.one_per_type, GlobalNotificationSet.iter. intros Hnodup.
  rewrite <- (length_fmap GlobalNotification.type).
  change 3%nat with (length [GlobalNotification.INFO; GlobalNotification.WARNING;
                             GlobalNotification.ERROR]).
  apply submseteq_length, NoDup_submseteq; [done |].
  intros [] _; repeat constructor.
Qed.

Lemma filter_other_type_length (ty : GlobalNotification.Type_)
    (l : list GlobalNotification.t) :
  NoDup (GlobalNotification.type <$> l) ->
  ty ∈ GlobalNotification.type <$> l ->
  S (length (filter (fun n => GlobalNotification.type n ≠ ty) l)) = length l.
Proof.
  induction l as [|x l IH]; cbn [fmap list_fmap]; [by intros _ ?%elem_of_nil |].
  intros [Hx Hl]%NoDup_cons Hty. rewrite filter_cons.
  destruct (decide (GlobalNotification.type x ≠ ty)) as [Hne|Heq].
  - cbn [length]. f_equal. apply IH; [done |].
    apply elem_of_cons in Hty as [-> | Hty]; done.
  - apply dec_stable in Heq. subst ty. cbn [length]. f_equal. f_equal.
    apply filter_all, Forall_forall. intros n Hn Heq. apply Hx. rewrite <- Heq.
    apply list_elem_of_fmap. by exists n.
Qed.


End global_extra_facts.

(** X10. Whatever the clock reads during the call,
    [GetPendingGlobalNotifications] leaves the user object as it is and
    returns notifications of the registry, in the registry's order, none of
    which is in the user's shown set, and each of which had one of the
    clock's readings in its window. *)
Theorem GetPendingGlobalNotifications_any_clock (storage : GlobalNotificationStorage.t)
    (Now : nat -> RDFDatetime.t) (self : GRRUser.t) :
  exists result,
    GRRUser.GetPendingGlobalNotifications storage Now self = (Returned result, self) /\
    result `sublist_of`
      GlobalNotificationSet.iter (GlobalNotificationStorage.GetNotifications storage) /\
    forall n, n ∈ result ->
      (n ∉ GlobalNotificationSet.iter
             (default GlobalNotificationSet.empty (GRRUser.shown_global_notifications self))) /\
      exists k, in_window (Now k) n.
Proof.
  unfold GRRUser.GetPendingGlobalNotifications.
  destruct (pending_global_any_clock Now
              (default GlobalNotificationSet.empty (GRRUser.shown_global_notifications self))
              (GlobalNotificationSet.iter (GlobalNotificationStorage.GetNotifications storage))
              0 []) as (added & -> & Hsub & Hall).
  exists added. split; [done |]. split; [done |].
  intros n Hn. by eapply Forall_forall in Hall.
Qed.



(** X12. From a registry that was never written, after any sequence of
    calls of [AddNotification] on the storage object, [GetNotifications]
    gives a set with at most one notification per type, in ascending order
    of type, of at most three notifications, in which the notification of
    the last call is. *)
Theorem GlobalNotificationStorage_invariant (news : list GlobalNotification.t) :
  let registry :=
    GlobalNotificationStorage.GetNotifications
      (GlobalNotificationStorage.AddNotifications
         (GlobalNotificationStorage.Make None) news) in
  GlobalNotificationSet.one_per_type registry /\
  GlobalNotificationSet.by_priority registry /\
  (length (GlobalNotificationSet.iter registry) <= 3)%nat /\
  (forall new, last news = Some new -> new ∈ GlobalNotificationSet.iter registry).
Proof.
  intros registry.
  assert (Hregistry : registry = GlobalNotificationSet.AddNotifications
                                   GlobalNotificationSet.empty news).
  { subst registry. destruct news as [|new news]; [done |].
    unfold GlobalNotificationStorage.GetNotifications at 1.
    by rewrite storage_AddNotifications by (by left). }
  assert (Hone : GlobalNotificationSet.one_per_type registry).
  { rewrite Hregistry. apply AddNotifications_one_per_type, NoDup_nil_2. }
  split; [done |]. split; [| split; [by apply one_per_type_length |]].
  - rewrite Hregistry. apply AddNotifications_by_priority. constructor.
  - intros new Hlast. rewrite Hregistry.
    apply last_Some in Hlast as [news' ->].
    unfold GlobalNotificationSet.AddNotifications. rewrite foldl_snoc.
    apply AddNotification_elem_of. by left.
Qed.

(** X13. On a set with at most one notification per type,
    [AddNotification] keeps the number of notifications when the set has one
    of the new notification's type, and adds one to it otherwise. *)
Theorem AddNotification_length (self : GlobalNotificationSet.t)
    (new : GlobalNotification.t) :
  GlobalNotificationSet.one_per_type self ->
  length (GlobalNotificationSet.iter (GlobalNotificationSet.AddNotification self new)) =
  if bool_decide (GlobalNotification.type new ∈
                  GlobalNotification.type <$> GlobalNotificationSet.iter self)
  then length (GlobalNotificationSet.iter self)
  else S (length (GlobalNotificationSet.iter self)).
Proof.
  unfold GlobalNotificationSet.one_per_type, GlobalNotificationSet.iter,
    GlobalNotificationSet.AddNotification. cbn [GlobalNotificationSet.notifications].
  intros Hnodup. rewrite sorted_perm, length_app. cbn [length]. rewrite Nat.add_1_r.
  case_bool_decide as Hty.
  - by apply filter_other_type_length.
  - f_equal. f_equal. apply filter_all, Forall_forall. intros n Hn Heq. apply Hty.
    rewrite <- Heq. apply list_elem_of_fmap. by exists n.
Qed.

Lemma AddNotification_length_witness :
  let warn := GlobalNotification.Make GlobalNotification.WARNING "disk full" None 10%Z 20%Z in
  let new := GlobalNotification.Make GlobalNotification.WARNING "disk fuller" None 10%Z 20%Z in
  let self := GlobalNotificationSet.AddNotification GlobalNotificationSet.empty warn in
  length (GlobalNotificationSet.iter (GlobalNotificationSet.AddNotification self new)) =
  if bool_decide (GlobalNotification.type new ∈
                  GlobalNotification.type <$> GlobalNotificationSet.iter self)
  then length (GlobalNotificationSet.iter self)
  else S (length (GlobalNotificationSet.iter self)).
Proof.
  intros warn new self.
  apply (AddNotification_length self new).
  apply NoDup_singleton.
Defined.

(** ** User names and the description of a user *)

Section username_facts.

Lemma lower_char_idemp (c : ascii) : Str.lower_char (Str.lower_char c) = Str.lower_char c.
Proof.
  unfold Str.lower_char at 2.
  destruct ((65 <=? N_of_ascii c) && (N_of_ascii c <=? 90)) eqn:Hupper.
  - destruct (andb_prop _ _ Hupper) as [Hlo%N.leb_le Hhi%N.leb_le].
    unfold Str.lower_char. rewrite N_ascii_embedding by lia. rewrite Hupper.
    replace (N_of_ascii c + 32 <=? 90) with false by (symmetry; apply N.leb_gt; lia).
    by rewrite andb_false_r.
  - unfold Str.lower_char. by rewrite Hupper.
Qed.

Lemma lower_idemp (s : string) : Str.lower (Str.lower s) = Str.lower s.
Proof.
  induction s as [|c s IH]; simpl; [done |]. by rewrite lower_char_idemp, IH.
Qed.

Lemma string_app_assoc (a b c : string) : (a +:+ b) +:+ c = a +:+ b +:+ c.
Proof.
  induction a as [|x a IH]; [done |].
  change (String x ((a +:+ b) +:+ c) = String x (a +:+ b +:+ c)). by f_equal.
Qed.

(** The pieces of a string that ends with a separator and a piece free of
    it: the last one is that piece. *)
Lemma split_last (sep : ascii) (a y : string) :
  Str.contains sep y = false ->
  last (Str.split sep (a +:+ String sep y)) = Some y.
Proof.
  intros Hy.
  assert (H : exists init, Str.split sep (a +:+ String sep y) = init ++ [y] /\ init ≠ []).
  { induction a as [|c a (init & IH & Hinit)]; simpl.
    - rewrite Ascii.eqb_refl, (split_no_sep _ _ Hy). by exists [EmptyString].
    - rewrite IH. destruct (Ascii.eqb c sep).
      + by exists (EmptyString :: init).
      + destruct init as [|piece pieces]; [done |]. by exists (String c piece :: pieces). }
  destruct H as (init & -> & _). apply last_snoc.
Qed.

End username_facts.

(** X14. A user name is refused exactly when it is one of the system user
    names up to the case of its letters: [IsValidUsername] depends on the
    lower-case form of the name only, and is false exactly when that form is
    the lower-case form of a name of [SYSTEM_USERS]. *)
Theorem IsValidUsername_spec (username : string) :
  (GRRUser.IsValidUsername username = false <->
   exists system_user, system_user ∈ GRRUser.SYSTEM_USERS /\
                       Str.lower username = Str.lower system_user) /\
  GRRUser.IsValidUsername (Str.lower username) = GRRUser.IsValidUsername username /\
  (forall other, Str.lower other = Str.lower username ->
                 GRRUser.IsValidUsername other = GRRUser.IsValidUsername username).
Proof.
  unfold GRRUser.IsValidUsername, GRRUser._SYSTEM_USERS_LOWERCASE.
  split; [| split].
  - rewrite negb_false_iff, bool_decide_eq_true, list_elem_of_fmap.
    split; intros (system_user & H1 & H2); by exists system_user.
  - by rewrite lower_idemp.
  - by intros other ->.
Qed.

Example IsValidUsername_examples :
  GRRUser.IsValidUsername "grrworker" = false /\
  GRRUser.IsValidUsername "GRRCRON" = false /\
  GRRUser.IsValidUsername "gRr" = false /\
  GRRUser.IsValidUsername "alice" = true /\
  GRRUser.IsValidUsername "GRRWorker2" = true.
Proof. repeat split. Qed.

(** X15. The last line of [Describe] tells whether a password is stored:
    it is [Password: not set] exactly when the password attribute is
    absent, which is exactly when [CheckPassword] returns [None], and
    [Password: set] otherwise, whatever the name and the labels are. *)
Theorem Describe_password (basename : string) (labels : list string) (self : GRRUser.t) :
  let last_line := last (Str.split Str.newline (GRRUser.Describe basename labels self)) in
  (last_line = Some "Password: not set" \/ last_line = Some "Password: set") /\
  (last_line = Some "Password: not set" <-> GRRUser.Get_PASSWORD self = None) /\
  (last_line = Some "Password: not set" <->
   forall crypt candidate,
     GRRUser.CheckPassword crypt candidate self = (Returned GRRUser.PyNone, self)).
Proof.
  intros last_line.
  assert (Hlast : last_line = Some (match GRRUser.Get_PASSWORD self with
                                    | None => "Password: not set"
                                    | Some _ => "Password: set"
                                    end)).
  { assert (Hjoin : forall l1 l2 l3,
              Str.join (String Str.newline "") [l1; l2; l3]
              = (l1 +:+ String Str.newline "" +:+ l2) +:+ String Str.newline l3).
    { intros l1 l2 l3. cbn [Str.join]. by rewrite !string_app_assoc. }
    subst last_line. unfold GRRUser.Describe.
    destruct (GRRUser.Get_PASSWORD self); cbn [app]; rewrite Hjoin; by apply split_last. }
  rewrite Hlast. split; [| split].
  - destruct (GRRUser.Get_PASSWORD self); [by right | by left].
  - destruct (GRRUser.Get_PASSWORD self); by split.
  - unfold GRRUser.CheckPassword.
    destruct (GRRUser.Get_PASSWORD self) as [password_obj|]; [| by split].
    split; [done |]. intros H. specialize (H None EmptyString). exfalso.
    destruct (CryptedPassword.nonzero password_obj); cbn [negb] in H; [| done].
    by destruct (CryptedPassword.CheckPassword None password_obj "").
Qed.

Example Describe_example :
  GRRUser.Describe "alice" ["admin"; "oncall"] new_user =
  String Str.newline "Username: alice" +:+
  String Str.newline "Labels: admin,oncall" +:+
  String Str.newline "Password: not set".
Proof. reflexivity. Qed.

(** ** Sequences of notifications and edited broadcasts *)

Section latest_facts.

Import GRRUser.

(** The last 50 entries of a list. *)
Let latest (l : NotificationList) : NotificationList := drop (length l - 50) l.

Lemma latest_app (l es : NotificationList) : latest (latest l ++ es) = latest (l ++ es).
Proof.
  unfold latest. destruct (decide (length l <= 50)%nat) as [Hle|Hgt].
  - replace (length l - 50)%nat with 0%nat by lia. by rewrite drop_0.
  - rewrite !length_app, length_drop.
    replace (length l - (length l - 50) + length es - 50)%nat with (length es) by lia.
    replace (length l + length es - 50)%nat with ((length l - 50) + length es)%nat by lia.
    rewrite <- drop_drop. f_equal. rewrite drop_app_le by lia. done.
Qed.

Lemma Notify_calls_cons (notification_types : list string) (c : call)
    (calls : list call) (self self1 : t) :
  Notify_call notification_types c self = (Returned (), self1) ->
  Notify_calls notification_types (c :: calls) self =
  Notify_calls notification_types calls self1.
Proof. intros H. unfold Notify_calls. cbn [for_each]. by run H. Qed.

Lemma Notify_calls_latest (notification_types : list string) (c : call)
    (calls : list call) (self : t) :
  Forall (fun c => call_type c ∈ notification_types) (c :: calls) ->
  exists self',
    Notify_calls notification_types (c :: calls) self = (Returned (), self') /\
    pending_notifications self' =
      Some (latest (default [] (pending_notifications self) ++ (entry <$> c :: calls))).
Proof.
  revert c self. induction calls as [|c' calls IH]; intros c self [Hc Hcalls]%Forall_cons.
  - eexists. split.
    + erewrite Notify_calls_cons; [reflexivity |].
      unfold Notify_call. by apply Notify_valid_type.
    + reflexivity.
  - erewrite Notify_calls_cons; last first.
    { unfold Notify_call. by apply Notify_valid_type. }
    match goal with |- context [Notify_calls _ (c' :: calls) ?self1] =>
      destruct (IH c' self1 Hcalls) as (self' & Hrun & Hpending)
    end.
    exists self'. split; [exact Hrun |]. rewrite Hpending.
    cbn [pending_notifications default from_option id]. f_equal.
    change (drop _ (?l ++ [?e])) with (latest (l ++ [e])).
    rewrite latest_app, <- (assoc_L (++)). done.
Qed.

End latest_facts.

(** X16. From any user object, after a sequence of at least one call of
    [Notify] with recognised types, every call has returned and the pending
    list is made of the last 50 entries (all of them when there are fewer) of
    the former pending list followed by the new entries in the order of the
    calls. *)
Theorem Notify_keeps_latest (notification_types : list string)
    (calls : list GRRUser.call) (self : GRRUser.t) :
  calls ≠ [] ->
  Forall (fun c => GRRUser.call_type c ∈ notification_types) calls ->
  exists self',
    GRRUser.Notify_calls notification_types calls self = (Returned (), self') /\
    let entries := default [] (GRRUser.pending_notifications self) ++
                   (GRRUser.entry <$> calls) in
    GRRUser.pending_notifications self' = Some (drop (length entries - 50) entries).
Proof.
  intros Hne Hvalid. destruct calls as [|c calls]; [done |].
  by apply Notify_calls_latest.
Qed.

Lemma Notify_keeps_latest_witness :
  let types := ["ViewObject"; "HostInformation"; "GrantAccess"] in
  let calls := [GRRUser.Call 101 "ViewObject" "aff4:/C.1" "first" "Flow";
                GRRUser.Call 102 "GrantAccess" "aff4:/C.2" "second" "Flow"] in
  exists self',
    GRRUser.Notify_calls types calls full_user = (Returned (), self') /\
    let entries := default [] (GRRUser.pending_notifications full_user) ++
                   (GRRUser.entry <$> calls) in
    GRRUser.pending_notifications self' = Some (drop (length entries - 50) entries).
Proof.
  intros types calls.
  apply (Notify_keeps_latest types calls full_user).
  - discriminate.
  - repeat constructor.
Defined.

(** X17. An edited broadcast is shown again: when a user has marked a
    notification as shown and the registry then receives another
    notification of the same type that is not equal to it,
    [GetPendingGlobalNotifications] returns the new one at any time of its
    window, and still does not return the one that was marked. *)
Theorem edited_notification_pending (unset : option GlobalNotificationSet.t)
    (old new : GlobalNotification.t) (self self' : GRRUser.t)
    (storage : GlobalNotificationStorage.t)
    (Now : nat -> RDFDatetime.t) (now : RDFDatetime.t) :
  GRRUser.MarkGlobalNotificationAsShown unset old self = Some self' ->
  GlobalNotification.type new = GlobalNotification.type old ->
  new ≠ old ->
  (forall k, Now k = now) ->
  in_window now new ->
  exists result,
    GRRUser.GetPendingGlobalNotifications
      (GlobalNotificationStorage.AddNotification storage new) Now self'
    = (Returned result, self') /\
    new ∈ result /\ old ∉ result.
Proof.
  unfold GRRUser.MarkGlobalNotificationAsShown. intros Hmark Htype Hne Hnow Hwindow.
  destruct (match GRRUser.shown_global_notifications self with
            | Some s => Some s
            | None => unset
            end) as [seen|]; [| done].
  injection Hmark as <-. unfold GRRUser.GetPendingGlobalNotifications.
  rewrite (pending_global_at Now now) by done.
  eexists. split; [reflexivity |]. cbn [GRRUser.shown_global_notifications default
    from_option id app]. rewrite !list_elem_of_filter. split.
  - split; [split; [| done] |].
    + intros [-> | [_ Hty]]%AddNotification_elem_of; done.
    + apply AddNotification_elem_of. by left.
  - intros [[Hseen _] _]. apply Hseen, AddNotification_elem_of. by left.
Qed.

Lemma edited_notification_pending_witness :
  let old := GlobalNotification.Make GlobalNotification.INFO "maintenance at 5" None 10%Z 20%Z in
  let new := GlobalNotification.Make GlobalNotification.INFO "maintenance at 6" None 10%Z 20%Z in
  let self' := GRRUser.Make None None
                 (Some (GlobalNotificationSet.AddNotification GlobalNotificationSet.empty old))
                 None [] (fun _ => None) in
  exists result,
    GRRUser.GetPendingGlobalNotifications
      (GlobalNotificationStorage.AddNotification sample_storage new) (fun _ => 15%Z) self'
    = (Returned result, self') /\
    new ∈ result /\ old ∉ result.
Proof.
  intros old new self'.
  apply (edited_notification_pending (Some GlobalNotificationSet.empty) old new
           new_user self' sample_storage (fun _ => 15%Z) 15%Z).
  - reflexivity.
  - reflexivity.
  - discriminate.
  - reflexivity.
  - unfold in_window, datetime_add. cbn. lia.
Defined.
